(** * School-management backend: authentication, role gates and entity
      lifecycle of [backend/server.py], as a shallow embedding.

    Every route handler of the server is an [async] function that reads
    and writes the Mongo collections behind the global [db].  Here a
    handler is a pure function of the database value it starts from
    and of the values the Python code draws from its surroundings (the
    clock, [uuid.uuid4()], the salt of the password hasher); it returns
    the response or the raised [HTTPException], and for the writing
    handlers the database it leaves behind. *)

From Stdlib Require Import List String ZArith Bool Lia Permutation Sorted.
Import ListNotations.

Open Scope string_scope.
Open Scope list_scope.
Open Scope Z_scope.

Set Default Proof Using "Type".

(** ** Responses *)

(** [fastapi.HTTPException(status_code=..., detail=...)]. *)
Record HTTPException : Type := mkHTTPException {
  status_code : Z;
  detail : string
}.

(** What a handler hands back to the framework: the returned value, or
    the exception it raised. *)
Inductive outcome (A : Type) : Type :=
| Return (a : A)
| Raise (e : HTTPException).

Arguments Return {A} a.
Arguments Raise {A} e.

Definition bind {A B : Type} (m : outcome A) (k : A -> outcome B) : outcome B :=
  match m with
  | Return a => k a
  | Raise e => Raise e
  end.

Definition is_return {A : Type} (m : outcome A) : bool :=
  match m with
  | Return _ => true
  | Raise _ => false
  end.

(** The error kinds of the interface, told apart by the status code the
    handlers put on the exception: 400 for the duplicate username, 401
    for every failure of authentication, 403 for a role that lacks the
    permission, 404 for an entity id that is absent. *)
Inductive error_kind : Type :=
| Conflict
| Unauthorized
| Forbidden
| NotFound
| Internal.

Definition kind_of (e : HTTPException) : error_kind :=
  if status_code e =? 400 then Conflict
  else if status_code e =? 401 then Unauthorized
  else if status_code e =? 403 then Forbidden
  else if status_code e =? 404 then NotFound
  else Internal.

(** ** Time *)

(** An instant is a number of microseconds since the epoch, the
    resolution of [datetime.now(timezone.utc)].  A stored [created_at]
    is written with [isoformat()] and read back with
    [datetime.fromisoformat]; both are one-to-one and keep the order of
    UTC instants, so a document carries the instant itself. *)
Definition datetime : Type := Z.

Definition microseconds_per_second : Z := 1000000.

Definition timedelta_hours (h : Z) : Z := h * 3600 * microseconds_per_second.

(** ** Documents and request bodies *)

(** A document of [db.users]: the dump of the [User] model plus the
    [password] key that [register] adds. *)
Module UserDoc.
Record t : Type := mk {
  id : string;
  username : string;
  role : string;
  full_name : string;
  email : option string;
  created_at : datetime;
  password : string
}.
End UserDoc.

Module User.
Record t : Type := mk {
  id : string;
  username : string;
  role : string;
  full_name : string;
  email : option string;
  created_at : datetime
}.
End User.

Module UserCreate.
Record t : Type := mk {
  username : string;
  password : string;
  role : string;
  full_name : string;
  email : option string
}.
End UserCreate.

Module UserLogin.
Record t : Type := mk {
  username : string;
  password : string
}.
End UserLogin.

(** [Student] is both the response model and, field for field, the
    document of [db.students]. *)
Module Student.
Record t : Type := mk {
  id : string;
  user_id : string;
  full_name : string;
  roll_number : string;
  class_name : string;
  section : string;
  parent_id : option string;
  date_of_birth : option string;
  address : option string;
  phone : option string;
  created_at : datetime
}.
End Student.

Module StudentCreate.
Record t : Type := mk {
  full_name : string;
  roll_number : string;
  class_name : string;
  section : string;
  parent_id : option string;
  date_of_birth : option string;
  address : option string;
  phone : option string
}.
End StudentCreate.

Module Attendance.
Record t : Type := mk {
  id : string;
  student_id : string;
  student_name : string;
  date : string;
  status : string;
  subject : option string;
  marked_by : string;
  created_at : datetime
}.
End Attendance.

(** The two float fields [marks] and [max_marks] of a grade are never
    inspected by a handler; they are carried as the decimal text of the
    request. *)
Module Grade.
Record t : Type := mk {
  id : string;
  student_id : string;
  student_name : string;
  subject : string;
  exam_type : string;
  marks : string;
  max_marks : string;
  date : string;
  teacher_id : string;
  created_at : datetime
}.
End Grade.

Module Announcement.
Record t : Type := mk {
  id : string;
  title : string;
  content : string;
  author : string;
  target_role : option string;
  created_at : datetime
}.
End Announcement.

Module AttendanceCreate.
Record t : Type := mk {
  student_id : string;
  student_name : string;
  date : string;
  status : string;
  subject : option string
}.
End AttendanceCreate.

Module GradeCreate.
Record t : Type := mk {
  student_id : string;
  student_name : string;
  subject : string;
  exam_type : string;
  marks : string;
  max_marks : string;
  date : string
}.
End GradeCreate.

Module AnnouncementCreate.
Record t : Type := mk {
  title : string;
  content : string;
  target_role : option string
}.
End AnnouncementCreate.

(** ** The document store *)

(** A collection is the list of its documents in insertion order, the
    order in which an unsorted Mongo query on an unindexed field walks
    them. *)
Module Collection.
Section Ops.
Context {D : Type}.

Definition find_one (q : D -> bool) (c : list D) : option D := find q c.

Definition insert_one (d : D) (c : list D) : list D := c ++ [d].

Definition count_documents (q : D -> bool) (c : list D) : nat :=
  List.length (filter q c).

(** [find(q).to_list(n)]. *)
Definition find_to_list (q : D -> bool) (n : nat) (c : list D) : list D :=
  firstn n (filter q c).

(** [delete_one(q)]: the first matching document goes; the second
    component is [deleted_count]. *)
Fixpoint delete_one (q : D -> bool) (c : list D) : list D * nat :=
  match c with
  | [] => ([], 0%nat)
  | d :: c' =>
      if q d then (c', 1%nat)
      else let (r, n) := delete_one q c' in (d :: r, n)
  end.

(** [update_one(q, {"$set": ...})]: the first matching document is
    rewritten by [f]. *)
Fixpoint update_one (q : D -> bool) (f : D -> D) (c : list D) : list D :=
  match c with
  | [] => []
  | d :: c' => if q d then f d :: c' else d :: update_one q f c'
  end.

(** The order of [sort(key, -1)]: [a] may stand before [b]. *)
Definition descending (key : D -> Z) (a b : D) : Prop := key b <= key a.

(** [sort(key, -1)]: descending on an integer key, by insertion. *)
Fixpoint insert_desc (key : D -> Z) (d : D) (c : list D) : list D :=
  match c with
  | [] => [d]
  | e :: c' =>
      if key e <=? key d then d :: e :: c' else e :: insert_desc key d c'
  end.

Definition sort_desc (key : D -> Z) (c : list D) : list D :=
  fold_right (insert_desc key) [] c.

End Ops.
End Collection.

Record DB : Type := mkDB {
  users : list UserDoc.t;
  students : list Student.t;
  attendance : list Attendance.t;
  grades : list Grade.t;
  announcements : list Announcement.t
}.

Definition set_users (us : list UserDoc.t) (db : DB) : DB :=
  mkDB us (students db) (attendance db) (grades db) (announcements db).

Definition set_students (ss : list Student.t) (db : DB) : DB :=
  mkDB (users db) ss (attendance db) (grades db) (announcements db).

Definition set_attendance (xs : list Attendance.t) (db : DB) : DB :=
  mkDB (users db) (students db) xs (grades db) (announcements db).

Definition set_grades (gs : list Grade.t) (db : DB) : DB :=
  mkDB (users db) (students db) (attendance db) gs (announcements db).

Definition set_announcements (ns : list Announcement.t) (db : DB) : DB :=
  mkDB (users db) (students db) (attendance db) (grades db) ns.

(** The truth value Python gives an optional query parameter: [None]
    and the empty string are false. *)
Definition truthy (o : option string) : bool :=
  match o with
  | None => false
  | Some x => negb (String.eqb x "")
  end.

(** One key of a query document that is only put in when its parameter
    is truthy. *)
Definition optional_filter {D : Type} (field : D -> string) (o : option string)
    (d : D) : bool :=
  match o with
  | Some x => if truthy o then String.eqb (field d) x else true
  | None => true
  end.

(** Equality filters of the queries. *)
Definition opt_eqb (a b : option string) : bool :=
  match a, b with
  | None, None => true
  | Some x, Some y => String.eqb x y
  | _, _ => false
  end.

(** [x in [...]] on strings. *)
Definition str_in (x : string) (l : list string) : bool :=
  existsb (String.eqb x) l.

(** ** Bearer tokens *)

(** Modelled from the spec: the [jwt] package the server imports is not
    part of the repository.  Section 4.2 of the specification describes
    it as a symmetric MAC over the claims subject, role and expiry, whose
    validation yields the claims, Expired or Invalid.  A token is
    therefore either a string that does not parse, or claims together
    with the key and algorithm that signed them; forging a signature
    without the key is not representable.  The calls the server makes,
    [encode] with [algorithm=] and [decode] with [algorithms=], are
    those of PyJWT, the package that installs under the name [jwt]. *)
Module jwt.

Record claims : Type := mkClaims {
  sub : option string;
  role : option string;
  exp : option Z
}.

Inductive token : Type :=
| Malformed (raw : string)
| Signed (key : string) (alg : string) (payload : claims).

(** The exceptions [decode] raises here; [PyJWTError] is the base
    class of them all. *)
Inductive PyJWTError : Type :=
| ExpiredSignatureError
| DecodeError
| InvalidAlgorithmError
| InvalidSignatureError.

(** The public names of the module.  [JWTError] is not among them: it
    is a name of another package, python-jose. *)
Definition exports : list string :=
  [ "PyJWS"; "PyJWT"; "PyJWKClient"; "PyJWK"; "PyJWKSet";
    "decode"; "encode"; "get_unverified_header";
    "register_algorithm"; "unregister_algorithm"; "get_algorithm_by_name";
    "DecodeError"; "ExpiredSignatureError"; "ImmatureSignatureError";
    "InvalidAlgorithmError"; "InvalidAudienceError"; "InvalidIssuedAtError";
    "InvalidIssuerError"; "InvalidKeyError"; "InvalidSignatureError";
    "InvalidTokenError"; "MissingRequiredClaimError";
    "PyJWKClientConnectionError"; "PyJWKClientError"; "PyJWKError";
    "PyJWKSetError"; "PyJWTError" ].

(** [hasattr(jwt, name)]: looking up any other name raises
    [AttributeError]. *)
Definition hasattr (name : string) : bool := str_in name exports.

Definition encode (payload : claims) (key : string) (algorithm : string) : token :=
  Signed key algorithm payload.

(** A [datetime] given as a claim is written into the token as whole
    seconds since the epoch. *)
Definition numeric_date (d : datetime) : Z := d / microseconds_per_second.

(** [exp] is carried in whole seconds; the token is expired once the
    clock has reached it. *)
Definition expired (now : datetime) (payload : claims) : bool :=
  match exp payload with
  | Some e => e * microseconds_per_second <=? now
  | None => false
  end.

Definition decode (now : datetime) (t : token) (key : string)
    (algorithms : list string) : claims + PyJWTError :=
  match t with
  | Malformed _ => inr DecodeError
  | Signed k a payload =>
      if negb (str_in a algorithms) then inr InvalidAlgorithmError
      else if negb (String.eqb k key) then inr InvalidSignatureError
      else if expired now payload then inr ExpiredSignatureError
      else inl payload
  end.

End jwt.

Definition JWT_ALGORITHM : string := "HS256".
Definition JWT_EXPIRATION_HOURS : Z := 24.

(** ** A small school *)

(** Documents and stand-ins for the collaborators, used by the examples
    that close the development. *)
Definition alice : UserDoc.t :=
  UserDoc.mk "u-1" "alice" "admin" "Alice Arden" None 10 "na:wonderland".

Definition terry : UserDoc.t :=
  UserDoc.mk "u-2" "terry" "teacher" "Terry Tate" (Some "terry@school.example")
             20 "cl:chalk".

Definition sam : UserDoc.t :=
  UserDoc.mk "u-3" "sam" "student" "Sam Stone" None 30 "mx:pencil".

Definition paula : UserDoc.t :=
  UserDoc.mk "u-4" "paula" "parent" "Paula Stone" None 40 "qq:coffee".

Definition sam_record : Student.t :=
  Student.mk "s-1" "u-3" "Sam Stone" "17" "5" "B" (Some "u-4") None None None 50.

Definition kim_record : Student.t :=
  Student.mk "s-2" "u-2" "Kim Kay" "18" "5" "B" None (Some "2014-02-03") None None 60.

Definition kim_data : StudentCreate.t :=
  StudentCreate.mk "Kim Kay" "21" "6" "A" None (Some "2014-02-03")
                   (Some "1 Elm Road") None.

Definition monday_sam : Attendance.t :=
  Attendance.mk "a-1" "s-1" "Sam Stone" "2024-03-04" "present" None "u-2" 70.

Definition tuesday_sam : Attendance.t :=
  Attendance.mk "a-2" "s-1" "Sam Stone" "2024-03-05" "absent" (Some "maths") "u-2" 80.

Definition maths_sam : Grade.t :=
  Grade.mk "g-1" "s-1" "Sam Stone" "maths" "midterm" "41.5" "50" "2024-03-06"
           "u-2" 90.

Definition staff_meeting : Announcement.t :=
  Announcement.mk "n-1" "Staff meeting" "Room 2 at four" "Alice Arden"
                  (Some "teacher") 100.

Definition sports_day : Announcement.t :=
  Announcement.mk "n-2" "Sports day" "Friday on the field" "Terry Tate" None 110.

Definition parents_evening : Announcement.t :=
  Announcement.mk "n-3" "Parents' evening" "Thursday at six" "Alice Arden"
                  (Some "parent") 120.

Definition school : DB :=
  mkDB [alice; terry; sam; paula] [sam_record; kim_record]
       [monday_sam; tuesday_sam] [maths_sam]
       [staff_meeting; sports_day; parents_evening].


Definition sample_secret : string := "k3y".

(** A two-letter salt, a colon, the password. *)
Definition sample_hash (salt password : string) : string :=
  String.append salt (String.append ":" password).

Definition sample_verify (plain_password hashed_password : string) : bool :=
  String.eqb (substring 3 (String.length hashed_password - 3) hashed_password)
             plain_password.

(** A second stand-in for the hasher, good for every salt: the
    password, a dollar sign, the salt. *)
Definition tagged_hash (salt password : string) : string :=
  String.append password (String.append "$" salt).

Definition tagged_verify (plain_password hashed_password : string) : bool :=
  String.prefix (String.append plain_password "$") hashed_password.

Definition nora_data : UserCreate.t :=
  UserCreate.mk "nora" "owl" "parent" "Nora North" (Some "nora@home.example").

Definition late_sam : AttendanceCreate.t :=
  AttendanceCreate.mk "s-1" "Sam Stone" "2024-03-06" "late" None.

Definition essay_sam : GradeCreate.t :=
  GradeCreate.mk "s-1" "Sam Stone" "english" "essay" "17" "20" "2024-03-07".

Definition bake_sale : AnnouncementCreate.t :=
  AnnouncementCreate.mk "Bake sale" "Saturday in the hall" (Some "parent").

(** ** The server *)

Section Server.

(** The signing secret comes from the environment of the process. *)
Variable JWT_SECRET : string.

(** Modelled from the spec: [pwd_context] is passlib's bcrypt context,
    not part of the repository.  Section 4.1 of the specification gives
    it two operations, a salted one-way [hash] and a [verify] that
    answers with a boolean and never throws; the salt that [hash] draws
    is its first argument here. *)
Variable pwd_context_hash : string -> string -> string.
Variable pwd_context_verify : string -> string -> bool.

Definition hash_password (salt password : string) : string :=
  pwd_context_hash salt password.

Definition verify_password (plain_password hashed_password : string) : bool :=
  pwd_context_verify plain_password hashed_password.

(** [data] holds the keys [sub] and [role]; [update] puts [exp] in. *)
Definition create_access_token (now : datetime) (data : jwt.claims) : jwt.token :=
  let expire := now + timedelta_hours JWT_EXPIRATION_HOURS in
  let to_encode :=
    jwt.mkClaims (jwt.sub data) (jwt.role data) (Some (jwt.numeric_date expire)) in
  jwt.encode to_encode JWT_SECRET JWT_ALGORITHM.

(** What can be raised inside the [try] block of [get_current_user]. *)
Inductive raised : Type :=
| HTTP (e : HTTPException)
| JWT (e : jwt.PyJWTError).

Definition get_current_user_try (now : datetime) (token : jwt.token) (db : DB)
    : UserDoc.t + raised :=
  match jwt.decode now token JWT_SECRET [JWT_ALGORITHM] with
  | inr e => inr (JWT e)
  | inl payload =>
      match jwt.sub payload with
      | None =>
          inr (HTTP (mkHTTPException 401 "Invalid authentication credentials"))
      | Some user_id =>
          match Collection.find_one
                  (fun u => String.eqb (UserDoc.id u) user_id) (users db) with
          | None => inr (HTTP (mkHTTPException 401 "User not found"))
          | Some user => inl user
          end
      end
  end.

(** An exception that is no [HTTPException] leaves the route, and the
    framework answers it with status 500. *)
Definition unhandled : HTTPException :=
  mkHTTPException 500 "Internal Server Error".

(** The two [except] clauses, tried in order on whatever the block
    raised, the two [HTTPException]s of the block included.  The class
    a clause names is looked up when the clause is reached: the first
    is found and catches an expired token; the second names
    [jwt.JWTError], and when the module has no such attribute the
    lookup itself raises [AttributeError] in place of what the block
    raised. *)
Definition get_current_user (now : datetime) (token : jwt.token) (db : DB)
    : outcome UserDoc.t :=
  match get_current_user_try now token db with
  | inl user => Return user
  | inr raised_in_try =>
      match raised_in_try with
      | JWT jwt.ExpiredSignatureError =>
          Raise (mkHTTPException 401 "Token has expired")
      | _ =>
          if jwt.hasattr "JWTError" then
            match raised_in_try with
            | JWT _ =>
                Raise (mkHTTPException 401 "Could not validate credentials")
            | HTTP e => Raise e
            end
          else Raise unhandled
      end
  end.

(** The [User] model built from a stored document; with [extra] set to
    ignore, the [password] key is dropped. *)
Definition User_of_doc (d : UserDoc.t) : User.t :=
  User.mk (UserDoc.id d) (UserDoc.username d) (UserDoc.role d)
          (UserDoc.full_name d) (UserDoc.email d) (UserDoc.created_at d).

(** *** Authentication routes *)

Definition register (uuid : string) (now : datetime) (salt : string)
    (user_data : UserCreate.t) (db : DB) : outcome User.t * DB :=
  let existing_user :=
    Collection.find_one
      (fun u => String.eqb (UserDoc.username u) (UserCreate.username user_data))
      (users db) in
  match existing_user with
  | Some _ => (Raise (mkHTTPException 400 "Username already exists"), db)
  | None =>
      let hashed_password := hash_password salt (UserCreate.password user_data) in
      let user_obj :=
        User.mk uuid (UserCreate.username user_data) (UserCreate.role user_data)
                (UserCreate.full_name user_data) (UserCreate.email user_data) now in
      let doc :=
        UserDoc.mk (User.id user_obj) (User.username user_obj) (User.role user_obj)
                   (User.full_name user_obj) (User.email user_obj)
                   (User.created_at user_obj) hashed_password in
      (Return user_obj, set_users (Collection.insert_one doc (users db)) db)
  end.

Record LoginResponse : Type := mkLoginResponse {
  access_token : jwt.token;
  token_type : string;
  user : User.t
}.

Definition login (now : datetime) (login_data : UserLogin.t) (db : DB)
    : outcome LoginResponse :=
  match Collection.find_one
          (fun u => String.eqb (UserDoc.username u) (UserLogin.username login_data))
          (users db) with
  | None => Raise (mkHTTPException 401 "Invalid username or password")
  | Some user =>
      if negb (verify_password (UserLogin.password login_data) (UserDoc.password user))
      then Raise (mkHTTPException 401 "Invalid username or password")
      else
        let access_token :=
          create_access_token now
            (jwt.mkClaims (Some (UserDoc.id user)) (Some (UserDoc.role user)) None) in
        Return (mkLoginResponse access_token "bearer" (User_of_doc user))
  end.

Definition get_me (current_user : UserDoc.t) : outcome User.t :=
  Return (User_of_doc current_user).

(** A route declared with [Depends(get_current_user)]: the handler runs
    only on the user the dependency returned. *)
Definition Depends {A : Type} (now : datetime) (token : jwt.token) (db : DB)
    (handler : UserDoc.t -> outcome A) : outcome A :=
  bind (get_current_user now token db) handler.

(** *** Student routes *)

Definition student_with_id (student_id : string) (s : Student.t) : bool :=
  String.eqb (Student.id s) student_id.

Definition create_student (uuid : string) (now : datetime)
    (student_data : StudentCreate.t) (current_user : UserDoc.t) (db : DB)
    : outcome Student.t * DB :=
  if negb (str_in (UserDoc.role current_user) ["admin"; "teacher"])
  then (Raise (mkHTTPException 403 "Not authorized"), db)
  else
    let student_obj :=
      Student.mk uuid (UserDoc.id current_user)
        (StudentCreate.full_name student_data)
        (StudentCreate.roll_number student_data)
        (StudentCreate.class_name student_data)
        (StudentCreate.section student_data)
        (StudentCreate.parent_id student_data)
        (StudentCreate.date_of_birth student_data)
        (StudentCreate.address student_data)
        (StudentCreate.phone student_data)
        now in
    (Return student_obj,
     set_students (Collection.insert_one student_obj (students db)) db).

Definition get_students (current_user : UserDoc.t) (db : DB)
    : outcome (list Student.t) :=
  Return (Collection.find_to_list (fun _ => true) 1000 (students db)).

Definition get_student (student_id : string) (current_user : UserDoc.t) (db : DB)
    : outcome Student.t :=
  match Collection.find_one (student_with_id student_id) (students db) with
  | None => Raise (mkHTTPException 404 "Student not found")
  | Some student => Return student
  end.

(** [{"$set": student_data.model_dump()}]: the keys of [StudentCreate]
    are assigned, every other key of the document stays. *)
Definition set_update_data (update_data : StudentCreate.t) (s : Student.t)
    : Student.t :=
  Student.mk (Student.id s) (Student.user_id s)
    (StudentCreate.full_name update_data)
    (StudentCreate.roll_number update_data)
    (StudentCreate.class_name update_data)
    (StudentCreate.section update_data)
    (StudentCreate.parent_id update_data)
    (StudentCreate.date_of_birth update_data)
    (StudentCreate.address update_data)
    (StudentCreate.phone update_data)
    (Student.created_at s).

(** Were the second [find_one] to come back empty, [updated_student.get]
    would fail on [None] and the framework would answer 500. *)
Definition update_student (student_id : string) (student_data : StudentCreate.t)
    (current_user : UserDoc.t) (db : DB) : outcome Student.t * DB :=
  if negb (str_in (UserDoc.role current_user) ["admin"; "teacher"])
  then (Raise (mkHTTPException 403 "Not authorized"), db)
  else
    match Collection.find_one (student_with_id student_id) (students db) with
    | None => (Raise (mkHTTPException 404 "Student not found"), db)
    | Some _ =>
        let db' :=
          set_students
            (Collection.update_one (student_with_id student_id)
               (set_update_data student_data) (students db)) db in
        match Collection.find_one (student_with_id student_id) (students db') with
        | Some updated_student => (Return updated_student, db')
        | None => (Raise (mkHTTPException 500 "Internal Server Error"), db')
        end
    end.

Definition delete_student (student_id : string) (current_user : UserDoc.t)
    (db : DB) : outcome string * DB :=
  if negb (String.eqb (UserDoc.role current_user) "admin")
  then (Raise (mkHTTPException 403 "Not authorized"), db)
  else
    let (remaining, deleted_count) :=
      Collection.delete_one (student_with_id student_id) (students db) in
    let db' := set_students remaining db in
    if Nat.eqb deleted_count 0
    then (Raise (mkHTTPException 404 "Student not found"), db')
    else (Return "Student deleted successfully", db').

(** *** Announcements *)

(** The query document: empty for an admin, otherwise the [$or] of a
    null [target_role] and the caller's role. *)
Definition announcement_query (current_user : UserDoc.t) (a : Announcement.t)
    : bool :=
  if negb (String.eqb (UserDoc.role current_user) "admin")
  then opt_eqb (Announcement.target_role a) None
       || opt_eqb (Announcement.target_role a) (Some (UserDoc.role current_user))
  else true.

Definition get_announcements (current_user : UserDoc.t) (db : DB)
    : outcome (list Announcement.t) :=
  Return
    (firstn 100
       (Collection.sort_desc Announcement.created_at
          (filter (announcement_query current_user) (announcements db)))).

(** *** Dashboard *)

(** [stats] is a dictionary filled key by key; [today] is the clock
    formatted as [%Y-%m-%d]. *)
Definition get_dashboard_stats (today : string) (current_user : UserDoc.t)
    (db : DB) : outcome (list (string * nat)) :=
  let role := UserDoc.role current_user in
  if String.eqb role "admin" then
    Return
      [ ("total_students", Collection.count_documents (fun _ => true) (students db));
        ("total_teachers",
         Collection.count_documents
           (fun u => String.eqb (UserDoc.role u) "teacher") (users db));
        ("total_parents",
         Collection.count_documents
           (fun u => String.eqb (UserDoc.role u) "parent") (users db));
        ("total_announcements",
         Collection.count_documents (fun _ => true) (announcements db));
        ("today_present",
         Collection.count_documents
           (fun a => String.eqb (Attendance.date a) today
                     && String.eqb (Attendance.status a) "present")
           (attendance db));
        ("today_absent",
         Collection.count_documents
           (fun a => String.eqb (Attendance.date a) today
                     && String.eqb (Attendance.status a) "absent")
           (attendance db)) ]
  else if String.eqb role "teacher" then
    Return
      [ ("total_students", Collection.count_documents (fun _ => true) (students db));
        ("classes_today", 5%nat);
        ("pending_grades", 12%nat) ]
  else if String.eqb role "student" then
    match Collection.find_one
            (fun s => String.eqb (Student.user_id s) (UserDoc.id current_user))
            (students db) with
    | Some student =>
        Return
          [ ("total_attendance",
             Collection.count_documents
               (fun a => String.eqb (Attendance.student_id a) (Student.id student))
               (attendance db));
            ("present_days",
             Collection.count_documents
               (fun a => String.eqb (Attendance.student_id a) (Student.id student)
                         && String.eqb (Attendance.status a) "present")
               (attendance db));
            ("total_grades",
             Collection.count_documents
               (fun g => String.eqb (Grade.student_id g) (Student.id student))
               (grades db)) ]
    | None => Return []
    end
  else if String.eqb role "parent" then
    Return
      [ ("children_count",
         Collection.count_documents
           (fun s => opt_eqb (Student.parent_id s) (Some (UserDoc.id current_user)))
           (students db));
        ("announcements_count",
         Collection.count_documents
           (fun a => opt_eqb (Announcement.target_role a) None
                     || opt_eqb (Announcement.target_role a) (Some "parent"))
           (announcements db));
        ("events_count", 3%nat) ]
  else Return [].

(** *** Attendance, grades and the posting of announcements *)

Definition mark_attendance (uuid : string) (now : datetime)
    (attendance_data : AttendanceCreate.t) (current_user : UserDoc.t) (db : DB)
    : outcome Attendance.t * DB :=
  if negb (str_in (UserDoc.role current_user) ["admin"; "teacher"])
  then (Raise (mkHTTPException 403 "Not authorized"), db)
  else
    let attendance_obj :=
      Attendance.mk uuid
        (AttendanceCreate.student_id attendance_data)
        (AttendanceCreate.student_name attendance_data)
        (AttendanceCreate.date attendance_data)
        (AttendanceCreate.status attendance_data)
        (AttendanceCreate.subject attendance_data)
        (UserDoc.id current_user)
        now in
    (Return attendance_obj,
     set_attendance (Collection.insert_one attendance_obj (attendance db)) db).

Definition attendance_query (student_id date : option string)
    (a : Attendance.t) : bool :=
  optional_filter Attendance.student_id student_id a
  && optional_filter Attendance.date date a.

Definition get_attendance (student_id date : option string)
    (current_user : UserDoc.t) (db : DB) : outcome (list Attendance.t) :=
  Return
    (Collection.find_to_list (attendance_query student_id date) 1000
       (attendance db)).

Definition add_grade (uuid : string) (now : datetime)
    (grade_data : GradeCreate.t) (current_user : UserDoc.t) (db : DB)
    : outcome Grade.t * DB :=
  if negb (str_in (UserDoc.role current_user) ["admin"; "teacher"])
  then (Raise (mkHTTPException 403 "Not authorized"), db)
  else
    let grade_obj :=
      Grade.mk uuid
        (GradeCreate.student_id grade_data)
        (GradeCreate.student_name grade_data)
        (GradeCreate.subject grade_data)
        (GradeCreate.exam_type grade_data)
        (GradeCreate.marks grade_data)
        (GradeCreate.max_marks grade_data)
        (GradeCreate.date grade_data)
        (UserDoc.id current_user)
        now in
    (Return grade_obj,
     set_grades (Collection.insert_one grade_obj (grades db)) db).

Definition get_grades (student_id : option string) (current_user : UserDoc.t)
    (db : DB) : outcome (list Grade.t) :=
  Return
    (Collection.find_to_list (optional_filter Grade.student_id student_id) 1000
       (grades db)).

Definition create_announcement (uuid : string) (now : datetime)
    (announcement_data : AnnouncementCreate.t) (current_user : UserDoc.t)
    (db : DB) : outcome Announcement.t * DB :=
  if negb (str_in (UserDoc.role current_user) ["admin"; "teacher"])
  then (Raise (mkHTTPException 403 "Not authorized"), db)
  else
    let announcement_obj :=
      Announcement.mk uuid
        (AnnouncementCreate.title announcement_data)
        (AnnouncementCreate.content announcement_data)
        (UserDoc.full_name current_user)
        (AnnouncementCreate.target_role announcement_data)
        now in
    (Return announcement_obj,
     set_announcements
       (Collection.insert_one announcement_obj (announcements db)) db).

(** ** The vocabulary of the properties *)

(** A token that does not parse, or that was signed under another key. *)
Definition invalid_token (token : jwt.token) : Prop :=
  match token with
  | jwt.Malformed _ => True
  | jwt.Signed key _ _ => key <> JWT_SECRET
  end.


(** The two ways in which the credentials of a login request are bad. *)
Definition unknown_username (login_data : UserLogin.t) (db : DB) : Prop :=
  forall u, In u (users db) ->
            UserDoc.username u <> UserLogin.username login_data.

Definition wrong_password (login_data : UserLogin.t) (db : DB) : Prop :=
  exists u,
    Collection.find_one
      (fun u0 => String.eqb (UserDoc.username u0) (UserLogin.username login_data))
      (users db) = Some u /\
    verify_password (UserLogin.password login_data) (UserDoc.password u) = false.

Definition bad_credentials (login_data : UserLogin.t) (db : DB) : Prop :=
  unknown_username login_data db \/ wrong_password login_data db.

(** The data model has student ids unique; [uuid.uuid4()] is taken to
    return an id no stored student has. *)
Definition unique_ids (db : DB) : Prop :=
  NoDup (map Student.id (students db)).

Definition fresh_id (uuid : string) (db : DB) : Prop :=
  forall s, In s (students db) -> Student.id s <> uuid.

Definition has_student (student_id : string) (db : DB) : Prop :=
  exists s, In s (students db) /\ Student.id s = student_id.

(** The fields of a request body as found in a student. *)
Definition carries (student_data : StudentCreate.t) (s : Student.t) : Prop :=
  Student.full_name s = StudentCreate.full_name student_data /\
  Student.roll_number s = StudentCreate.roll_number student_data /\
  Student.class_name s = StudentCreate.class_name student_data /\
  Student.section s = StudentCreate.section student_data /\
  Student.parent_id s = StudentCreate.parent_id student_data /\
  Student.date_of_birth s = StudentCreate.date_of_birth student_data /\
  Student.address s = StudentCreate.address student_data /\
  Student.phone s = StudentCreate.phone student_data.

(** The requests that write to [db.students], and the database each
    leaves behind. *)
Inductive student_request : Type :=
| Create (uuid : string) (now : datetime) (student_data : StudentCreate.t)
         (current_user : UserDoc.t)
| Update (student_id : string) (student_data : StudentCreate.t)
         (current_user : UserDoc.t)
| Delete (student_id : string) (current_user : UserDoc.t).

Definition serve (r : student_request) (db : DB) : DB :=
  match r with
  | Create uuid now student_data current_user =>
      snd (create_student uuid now student_data current_user db)
  | Update student_id student_data current_user =>
      snd (update_student student_id student_data current_user db)
  | Delete student_id current_user =>
      snd (delete_student student_id current_user db)
  end.

Definition serve_all (rs : list student_request) (db : DB) : DB :=
  fold_left (fun db r => serve r db) rs db.

Definition generates (student_id : string) (r : student_request) : Prop :=
  match r with
  | Create uuid _ _ _ => uuid = student_id
  | _ => False
  end.

Definition may_write (current_user : UserDoc.t) : Prop :=
  UserDoc.role current_user = "admin" \/ UserDoc.role current_user = "teacher".

Definition student_of_user (current_user : UserDoc.t) (s : Student.t) : bool :=
  String.eqb (Student.user_id s) (UserDoc.id current_user).

(** What a caller may see: everything for an admin, otherwise the
    broadcasts and what is addressed to the caller's role. *)
Definition visible (current_user : UserDoc.t) (a : Announcement.t) : Prop :=
  UserDoc.role current_user = "admin" \/
  Announcement.target_role a = None \/
  Announcement.target_role a = Some (UserDoc.role current_user).

Definition newest_first (l : list Announcement.t) : Prop :=
  StronglySorted (Collection.descending Announcement.created_at) l.

(** The data model has user ids and usernames unique. *)
Definition unique_user_ids (db : DB) : Prop :=
  NoDup (map UserDoc.id (users db)).

Definition unique_usernames (db : DB) : Prop :=
  NoDup (map UserDoc.username (users db)).

Definition fresh_user_id (uuid : string) (db : DB) : Prop :=
  forall u, In u (users db) -> UserDoc.id u <> uuid.

(** What passlib promises of its context: a hash verifies against the
    password it was made from. *)
Definition hasher_correct : Prop :=
  forall salt password,
    verify_password password (hash_password salt password) = true.

(** A token issued at [issued] is presented at least a second before
    its 24 hours are over. *)
Definition within_lifetime (issued now : datetime) : Prop :=
  now + microseconds_per_second <= issued + timedelta_hours JWT_EXPIRATION_HOURS.

(** A request names the id: it generates it, updates it or deletes it. *)
Definition touches (student_id : string) (r : student_request) : Prop :=
  match r with
  | Create uuid _ _ _ => uuid = student_id
  | Update student_id' _ _ => student_id' = student_id
  | Delete student_id' _ => student_id' = student_id
  end.

(** [stats[key]]. *)
Fixpoint lookup (key : string) (stats : list (string * nat)) : option nat :=
  match stats with
  | [] => None
  | (k, v) :: rest => if String.eqb k key then Some v else lookup key rest
  end.

(** The fields of the request bodies as found in the stored records. *)
Definition carries_attendance (attendance_data : AttendanceCreate.t)
    (a : Attendance.t) : Prop :=
  Attendance.student_id a = AttendanceCreate.student_id attendance_data /\
  Attendance.student_name a = AttendanceCreate.student_name attendance_data /\
  Attendance.date a = AttendanceCreate.date attendance_data /\
  Attendance.status a = AttendanceCreate.status attendance_data /\
  Attendance.subject a = AttendanceCreate.subject attendance_data.

Definition carries_grade (grade_data : GradeCreate.t) (g : Grade.t) : Prop :=
  Grade.student_id g = GradeCreate.student_id grade_data /\
  Grade.student_name g = GradeCreate.student_name grade_data /\
  Grade.subject g = GradeCreate.subject grade_data /\
  Grade.exam_type g = GradeCreate.exam_type grade_data /\
  Grade.marks g = GradeCreate.marks grade_data /\
  Grade.max_marks g = GradeCreate.max_marks grade_data /\
  Grade.date g = GradeCreate.date grade_data.

(** ** Facts about the store *)

Section CollectionFacts.
Context {D : Type}.
Implicit Types (q : D -> bool) (c : list D).

Lemma find_one_In q c d :
  Collection.find_one q c = Some d -> In d c /\ q d = true.
Proof. apply find_some. Qed.

Lemma find_one_absent q c :
  Collection.find_one q c = None <-> (forall d, In d c -> q d = false).
Proof.
  split.
  - intros H d Hd. exact (find_none q c H d Hd).
  - induction c as [|e c IH]; intros H; simpl; [reflexivity|].
    rewrite (H e (or_introl eq_refl)). apply IH.
    intros d Hd. apply H. now right.
Qed.

Lemma find_one_present q c d :
  In d c -> q d = true -> exists d', Collection.find_one q c = Some d'.
Proof.
  intros Hin Hq.
  destruct (Collection.find_one q c) as [d'|] eqn:E; [now exists d'|].
  rewrite find_one_absent in E. rewrite (E d Hin) in Hq. discriminate.
Qed.

Lemma find_one_insert_one q c d :
  Collection.find_one q (Collection.insert_one d c) =
  match Collection.find_one q c with
  | Some e => Some e
  | None => if q d then Some d else None
  end.
Proof.
  unfold Collection.find_one, Collection.insert_one.
  induction c as [|e c IH]; simpl; [reflexivity|].
  destruct (q e); [reflexivity | exact IH].
Qed.

Lemma delete_one_absent q c :
  Collection.find_one q c = None -> Collection.delete_one q c = (c, 0%nat).
Proof.
  unfold Collection.find_one.
  induction c as [|e c IH]; simpl; [reflexivity|].
  destruct (q e); [discriminate|].
  intros H. now rewrite (IH H).
Qed.

(** Deleting splits the collection at its first match. *)
Lemma delete_one_present q c d :
  Collection.find_one q c = Some d ->
  exists pre post,
    c = pre ++ d :: post /\
    (forall x, In x pre -> q x = false) /\
    Collection.delete_one q c = (pre ++ post, 1%nat).
Proof.
  unfold Collection.find_one.
  induction c as [|e c IH]; simpl; [discriminate|].
  destruct (q e) eqn:Eq.
  - intros [= ->]. exists [], c. repeat split. intros x [].
  - intros H. destruct (IH H) as (pre & post & -> & Hpre & Hdel).
    exists (e :: pre), post. rewrite Hdel. repeat split.
    intros x [<-|Hx]; [exact Eq | now apply Hpre].
Qed.

Lemma delete_one_incl q c d :
  In d (fst (Collection.delete_one q c)) -> In d c.
Proof.
  induction c as [|e c IH]; simpl; [intros []|].
  destruct (q e); simpl; [intros H; now right|].
  destruct (Collection.delete_one q c) as [r n]; simpl in IH |- *.
  intros [->|H]; [now left | right; now apply IH].
Qed.

(** Updating rewrites the first match in place. *)
Lemma update_one_present q (f : D -> D) c d :
  Collection.find_one q c = Some d ->
  exists pre post,
    c = pre ++ d :: post /\
    (forall x, In x pre -> q x = false) /\
    Collection.update_one q f c = pre ++ f d :: post.
Proof.
  unfold Collection.find_one.
  induction c as [|e c IH]; simpl; [discriminate|].
  destruct (q e) eqn:Eq.
  - intros [= ->]. exists [], c. repeat split. intros x [].
  - intros H. destruct (IH H) as (pre & post & -> & Hpre & Hupd).
    exists (e :: pre), post. rewrite Hupd. repeat split.
    intros x [<-|Hx]; [exact Eq | now apply Hpre].
Qed.

Lemma update_one_absent q (f : D -> D) c :
  Collection.find_one q c = None -> Collection.update_one q f c = c.
Proof.
  unfold Collection.find_one.
  induction c as [|e c IH]; simpl; [reflexivity|].
  destruct (q e); [discriminate|]. intros H. now rewrite (IH H).
Qed.

(** A projection that the rewriting function leaves alone is the same
    on the whole collection after the update. *)
Lemma update_one_map {K : Type} (k : D -> K) q (f : D -> D) c :
  (forall d, k (f d) = k d) ->
  map k (Collection.update_one q f c) = map k c.
Proof.
  intros Hk. induction c as [|e c IH]; simpl; [reflexivity|].
  destruct (q e); simpl; [now rewrite Hk | now rewrite IH].
Qed.

Lemma find_app_first q pre post d :
  (forall x, In x pre -> q x = false) -> q d = true ->
  find q (pre ++ d :: post) = Some d.
Proof.
  intros Hpre Hd. induction pre as [|e pre IH]; simpl.
  - now rewrite Hd.
  - rewrite (Hpre e (or_introl eq_refl)). apply IH.
    intros x Hx. apply Hpre. now right.
Qed.

End CollectionFacts.

(** ** Authentication *)

Lemma register_conflict (uuid : string) (now : datetime) (salt : string)
    (user_data : UserCreate.t) (db : DB) (u : UserDoc.t) :
  In u (users db) ->
  UserDoc.username u = UserCreate.username user_data ->
  register uuid now salt user_data db =
    (Raise (mkHTTPException 400 "Username already exists"), db).
Proof.
  intros Hin Hname. unfold register.
  destruct (find_one_present
              (fun u0 => String.eqb (UserDoc.username u0)
                                    (UserCreate.username user_data))
              (users db) u Hin) as [u' ->]; [|reflexivity].
  rewrite Hname. apply String.eqb_refl.
Qed.

(** C1.  A register request whose username is that of a stored user
    raises the 400 exception "Username already exists", of the Conflict
    kind, and leaves the database exactly as it was: every stored user
    document is untouched and none is added. *)
Theorem register_existing_username (uuid : string) (now : datetime)
    (salt : string) (user_data : UserCreate.t) (db : DB) :
  (exists u, In u (users db) /\
             UserDoc.username u = UserCreate.username user_data) ->
  exists e,
    register uuid now salt user_data db = (Raise e, db) /\
    status_code e = 400 /\
    detail e = "Username already exists" /\
    kind_of e = Conflict.
Proof.
  intros (u & Hin & Hname).
  exists (mkHTTPException 400 "Username already exists").
  rewrite (register_conflict uuid now salt user_data db u Hin Hname).
  repeat split.
Qed.

(** The scenario of the specification: after a first registration went
    through, a second one under the same username is refused and the
    database, the first user's document included, stays as the first
    call left it. *)
Lemma register_twice (uuid1 uuid2 : string) (now1 now2 : datetime)
    (salt1 salt2 : string) (d1 d2 : UserCreate.t) (db db1 : DB) (u1 : User.t) :
  register uuid1 now1 salt1 d1 db = (Return u1, db1) ->
  UserCreate.username d2 = UserCreate.username d1 ->
  register uuid2 now2 salt2 d2 db1 =
    (Raise (mkHTTPException 400 "Username already exists"), db1) /\
  exists doc, In doc (users db1) /\ User_of_doc doc = u1.
Proof.
  unfold register at 1.
  destruct (Collection.find_one _ (users db)) as [x|]; [discriminate|].
  intros [= <- <-] Hname.
  set (doc := UserDoc.mk uuid1 (UserCreate.username d1) (UserCreate.role d1)
                (UserCreate.full_name d1) (UserCreate.email d1) now1
                (hash_password salt1 (UserCreate.password d1))).
  assert (Hin : In doc (users (set_users (Collection.insert_one doc (users db)) db))).
  { simpl. unfold Collection.insert_one. apply in_or_app. right. now left. }
  split.
  - apply (register_conflict _ _ _ _ _ doc Hin). simpl. now rewrite Hname.
  - exists doc. split; [exact Hin | reflexivity].
Qed.

Lemma login_bad_credentials (now : datetime) (login_data : UserLogin.t) (db : DB) :
  bad_credentials login_data db ->
  login now login_data db =
    Raise (mkHTTPException 401 "Invalid username or password").
Proof.
  unfold login. intros [Hunk | (u & Hfind & Hver)].
  - assert (E : Collection.find_one
                  (fun u0 => String.eqb (UserDoc.username u0)
                                        (UserLogin.username login_data))
                  (users db) = None).
    { apply find_one_absent. intros u Hu.
      apply String.eqb_neq. now apply Hunk. }
    now rewrite E.
  - rewrite Hfind, Hver. reflexivity.
Qed.

(** C2.  A login with an unknown username and a login with a known
    username and a password that fails verification raise one and the
    same exception, 401 "Invalid username or password": any two failing
    requests, at any times and on any databases, have equal results. *)
Theorem login_failures_indistinguishable (now1 now2 : datetime)
    (d1 d2 : UserLogin.t) (db1 db2 : DB) :
  bad_credentials d1 db1 ->
  bad_credentials d2 db2 ->
  login now1 d1 db1 = login now2 d2 db2 /\
  exists e,
    login now1 d1 db1 = Raise e /\
    kind_of e = Unauthorized /\
    detail e = "Invalid username or password".
Proof.
  intros H1 H2.
  rewrite (login_bad_credentials now1 d1 db1 H1).
  rewrite (login_bad_credentials now2 d2 db2 H2).
  split; [reflexivity|]. eexists. repeat split.
Qed.

Lemma numeric_date_le (d : datetime) :
  jwt.numeric_date d * microseconds_per_second <= d.
Proof.
  unfold jwt.numeric_date, microseconds_per_second.
  rewrite Z.mul_comm. apply Z.mul_div_le. lia.
Qed.

Lemma decode_issued_expired (issued now : datetime) (data : jwt.claims) :
  issued + timedelta_hours 24 < now ->
  jwt.decode now (create_access_token issued data) JWT_SECRET [JWT_ALGORITHM] =
    inr jwt.ExpiredSignatureError.
Proof.
  intros Hlate. unfold create_access_token, jwt.encode, jwt.decode.
  simpl str_in. rewrite String.eqb_refl. simpl negb. cbv iota.
  unfold jwt.expired. simpl jwt.exp.
  pose proof (numeric_date_le (issued + timedelta_hours JWT_EXPIRATION_HOURS)) as Hle.
  unfold JWT_EXPIRATION_HOURS in *.
  destruct (Z.leb_spec
              (jwt.numeric_date (issued + timedelta_hours 24) * microseconds_per_second)
              now) as [_|Hgt]; [reflexivity | lia].
Qed.

Lemma decode_invalid (now : datetime) (token : jwt.token) :
  invalid_token token ->
  exists e,
    jwt.decode now token JWT_SECRET [JWT_ALGORITHM] = inr e /\
    e <> jwt.ExpiredSignatureError.
Proof.
  destruct token as [raw | key alg payload]; unfold invalid_token, jwt.decode;
    intros Hbad.
  - exists jwt.DecodeError. split; [reflexivity | discriminate].
  - destruct (negb (str_in alg [JWT_ALGORITHM])).
    + exists jwt.InvalidAlgorithmError. split; [reflexivity | discriminate].
    + apply String.eqb_neq in Hbad. rewrite Hbad. simpl.
      exists jwt.InvalidSignatureError. split; [reflexivity | discriminate].
Qed.

(** C3, on the code.  A token issued at [issued] and presented later
    than 24 hours after that is refused with 401 "Token has expired",
    as the claim says.  A token that is malformed or carries a bad
    signature is not refused with 401 "Could not validate credentials":
    the clause that would do so names a class the [jwt] module does not
    have, and the request ends as the unhandled 500. *)
Theorem token_expired_or_invalid (issued now : datetime) (data : jwt.claims)
    (now' : datetime) (token : jwt.token) (db db' : DB) :
  issued + timedelta_hours 24 < now ->
  invalid_token token ->
  get_current_user now (create_access_token issued data) db =
    Raise (mkHTTPException 401 "Token has expired") /\
  get_current_user now' token db' = Raise unhandled /\
  kind_of unhandled = Internal /\
  get_current_user now' token db' <>
    Raise (mkHTTPException 401 "Could not validate credentials").
Proof.
  intros Hlate Hbad.
  assert (E1 : get_current_user now (create_access_token issued data) db =
               Raise (mkHTTPException 401 "Token has expired")).
  { unfold get_current_user, get_current_user_try.
    now rewrite (decode_issued_expired issued now data Hlate). }
  assert (E2 : get_current_user now' token db' = Raise unhandled).
  { unfold get_current_user, get_current_user_try.
    destruct (decode_invalid now' token Hbad) as (e & -> & Hne).
    destruct e; [contradiction | reflexivity..]. }
  rewrite E1, E2. repeat split. discriminate.
Qed.



(** ** Students *)

Lemma student_with_id_true (student_id : string) (s : Student.t) :
  student_with_id student_id s = true <-> Student.id s = student_id.
Proof. apply String.eqb_eq. Qed.

Lemma student_with_id_false (student_id : string) (s : Student.t) :
  student_with_id student_id s = false <-> Student.id s <> student_id.
Proof. apply String.eqb_neq. Qed.

Lemma student_absent (student_id : string) (ss : list Student.t) :
  Collection.find_one (student_with_id student_id) ss = None <->
  ~ In student_id (map Student.id ss).
Proof.
  rewrite find_one_absent. split.
  - intros H Hin. apply in_map_iff in Hin. destruct Hin as (s & Hid & Hs).
    specialize (H s Hs). apply student_with_id_false in H. contradiction.
  - intros H s Hs. apply student_with_id_false. intros Hid.
    apply H. apply in_map_iff. now exists s.
Qed.

Lemma get_student_absent (student_id : string) (current_user : UserDoc.t)
    (db : DB) :
  ~ In student_id (map Student.id (students db)) ->
  get_student student_id current_user db =
    Raise (mkHTTPException 404 "Student not found").
Proof.
  intros H. unfold get_student.
  apply student_absent in H. now rewrite H.
Qed.

Lemma set_update_data_id (student_data : StudentCreate.t) (s : Student.t) :
  Student.id (set_update_data student_data s) = Student.id s.
Proof. reflexivity. Qed.

Lemma update_student_students (student_id : string)
    (student_data : StudentCreate.t) (current_user : UserDoc.t) (db : DB) :
  students (snd (update_student student_id student_data current_user db)) =
    students db \/
  students (snd (update_student student_id student_data current_user db)) =
    Collection.update_one (student_with_id student_id)
      (set_update_data student_data) (students db).
Proof.
  unfold update_student.
  destruct (negb _); [now left|].
  destruct (Collection.find_one _ (students db)); [|now left].
  right. destruct (Collection.find_one _ _); reflexivity.
Qed.

Lemma delete_student_students (student_id : string) (current_user : UserDoc.t)
    (db : DB) :
  students (snd (delete_student student_id current_user db)) = students db \/
  students (snd (delete_student student_id current_user db)) =
    fst (Collection.delete_one (student_with_id student_id) (students db)).
Proof.
  unfold delete_student.
  destruct (negb _); [now left|].
  destruct (Collection.delete_one _ (students db)) as [remaining n].
  right. destruct (Nat.eqb n 0); reflexivity.
Qed.

Lemma delete_one_ids (student_id : string) (ss : list Student.t) (x : string) :
  In x (map Student.id
          (fst (Collection.delete_one (student_with_id student_id) ss))) ->
  In x (map Student.id ss).
Proof.
  rewrite !in_map_iff. intros (s & Hid & Hs). exists s. split; [exact Hid|].
  exact (delete_one_incl _ _ _ Hs).
Qed.

(** The ids a request leaves in the collection are those it found, and
    for a create the generated one. *)
Lemma serve_ids (r : student_request) (db : DB) (x : string) :
  In x (map Student.id (students (serve r db))) ->
  In x (map Student.id (students db)) \/ generates x r.
Proof.
  destruct r as [uuid now sd cu | sid sd cu | sid cu]; simpl.
  - unfold create_student. destruct (negb _); simpl; [intros H; now left|].
    unfold Collection.insert_one. rewrite map_app, in_app_iff. simpl.
    intros [H | [H | []]]; [now left | now right].
  - destruct (update_student_students sid sd cu db) as [-> | ->];
      [intros H; now left|].
    rewrite (update_one_map Student.id);
      [intros H; now left | apply set_update_data_id].
  - destruct (delete_student_students sid cu db) as [-> | ->];
      [intros H; now left|].
    intros H. left. exact (delete_one_ids _ _ _ H).
Qed.

Lemma serve_all_absent (rs : list student_request) (student_id : string)
    (db : DB) :
  Forall (fun r => ~ generates student_id r) rs ->
  ~ In student_id (map Student.id (students db)) ->
  ~ In student_id (map Student.id (students (serve_all rs db))).
Proof.
  intros Hrs. revert db.
  induction Hrs as [|r rs Hr _ IH]; intros db Habs; simpl; [exact Habs|].
  apply IH. intros Hin.
  destruct (serve_ids r db student_id Hin) as [H | H];
    [exact (Habs H) | exact (Hr H)].
Qed.

(** Unique ids are an invariant of the three requests. *)
Lemma serve_unique_ids (r : student_request) (db : DB) :
  unique_ids db ->
  (forall x, generates x r -> fresh_id x db) ->
  unique_ids (serve r db).
Proof.
  unfold unique_ids. intros Hnd Hfresh.
  destruct r as [uuid now sd cu | sid sd cu | sid cu]; simpl.
  - unfold create_student. destruct (negb _); simpl; [exact Hnd|].
    unfold Collection.insert_one. rewrite map_app. simpl.
    apply NoDup_rev in Hnd. rewrite <- (rev_involutive (_ ++ _)).
    apply NoDup_rev. rewrite rev_app_distr. simpl. constructor; [|exact Hnd].
    rewrite <- in_rev. intros Hin. apply in_map_iff in Hin.
    destruct Hin as (s & Hid & Hs). exact (Hfresh uuid eq_refl s Hs Hid).
  - destruct (update_student_students sid sd cu db) as [-> | ->]; [exact Hnd|].
    rewrite (update_one_map Student.id); [exact Hnd | apply set_update_data_id].
  - destruct (delete_student_students sid cu db) as [-> | ->]; [exact Hnd|].
    destruct (Collection.find_one (student_with_id sid) (students db))
      as [d|] eqn:E.
    + destruct (delete_one_present _ _ _ E) as (pre & post & Hc & _ & ->).
      simpl. rewrite Hc, map_app in Hnd. simpl in Hnd.
      rewrite map_app. exact (NoDup_remove_1 _ _ _ Hnd).
    + now rewrite (delete_one_absent _ _ E).
Qed.

Lemma delete_student_forbidden (student_id : string) (current_user : UserDoc.t)
    (db : DB) :
  UserDoc.role current_user <> "admin" ->
  delete_student student_id current_user db =
    (Raise (mkHTTPException 403 "Not authorized"), db).
Proof.
  intros H. unfold delete_student.
  apply String.eqb_neq in H. now rewrite H.
Qed.

Lemma delete_student_admin (student_id : string) (current_user : UserDoc.t)
    (db : DB) :
  UserDoc.role current_user = "admin" ->
  unique_ids db ->
  has_student student_id db ->
  exists db',
    delete_student student_id current_user db =
      (Return "Student deleted successfully", db') /\
    ~ In student_id (map Student.id (students db')).
Proof.
  intros Hrole Hnd (s & Hs & Hid). unfold delete_student.
  rewrite Hrole. simpl negb. cbv iota.
  apply student_with_id_true in Hid.
  destruct (find_one_present _ _ s Hs Hid) as [d Hfind].
  destruct (delete_one_present _ _ _ Hfind) as (pre & post & Hc & _ & ->).
  simpl. eexists. split; [reflexivity|]. simpl.
  apply find_one_In in Hfind. destruct Hfind as [_ Hd].
  apply student_with_id_true in Hd.
  unfold unique_ids in Hnd. rewrite Hc, map_app in Hnd. simpl in Hnd.
  apply NoDup_remove_2 in Hnd. rewrite Hd in Hnd. now rewrite map_app.
Qed.

(** C5.  A caller whose role is not admin (a teacher, say) is refused
    with 403 "Not authorized" and the database is unchanged, whatever the
    id.  An admin deleting the id of a stored student succeeds, and from
    then on every get of that id answers 404 "Student not found", for
    any reader and after any further student requests that do not
    generate the same id anew. *)
Theorem delete_student_admin_only (other admin : UserDoc.t)
    (student_id0 student_id : string) (db0 db : DB) :
  UserDoc.role other <> "admin" ->
  UserDoc.role admin = "admin" ->
  unique_ids db ->
  has_student student_id db ->
  (delete_student student_id0 other db0 =
     (Raise (mkHTTPException 403 "Not authorized"), db0) /\
   kind_of (mkHTTPException 403 "Not authorized") = Forbidden) /\
  exists db',
    delete_student student_id admin db =
      (Return "Student deleted successfully", db') /\
    forall (later : list student_request) (reader : UserDoc.t),
      Forall (fun r => ~ generates student_id r) later ->
      get_student student_id reader (serve_all later db') =
        Raise (mkHTTPException 404 "Student not found") /\
      kind_of (mkHTTPException 404 "Student not found") = NotFound.
Proof.
  intros Hother Hadmin Hnd Hhas. split.
  - split; [now apply delete_student_forbidden | reflexivity].
  - destruct (delete_student_admin student_id admin db Hadmin Hnd Hhas)
      as (db' & Hdel & Habs).
    exists db'. split; [exact Hdel|].
    intros later reader Hlater. split; [|reflexivity].
    apply get_student_absent. now apply serve_all_absent.
Qed.

Lemma may_write_gate (current_user : UserDoc.t) :
  may_write current_user ->
  negb (str_in (UserDoc.role current_user) ["admin"; "teacher"]) = false.
Proof. intros [-> | ->]; reflexivity. Qed.

Lemma gate_may_write (current_user : UserDoc.t) :
  negb (str_in (UserDoc.role current_user) ["admin"; "teacher"]) = false ->
  may_write current_user.
Proof.
  unfold str_in, may_write. simpl.
  destruct (String.eqb_spec (UserDoc.role current_user) "admin") as [E|_];
    [now left|].
  destruct (String.eqb_spec (UserDoc.role current_user) "teacher") as [E|_];
    [now right | discriminate].
Qed.

Lemma create_student_returns (uuid : string) (now : datetime)
    (student_data : StudentCreate.t) (current_user : UserDoc.t) (db db' : DB)
    (s : Student.t) :
  create_student uuid now student_data current_user db = (Return s, db') ->
  may_write current_user /\
  s = Student.mk uuid (UserDoc.id current_user)
        (StudentCreate.full_name student_data)
        (StudentCreate.roll_number student_data)
        (StudentCreate.class_name student_data)
        (StudentCreate.section student_data)
        (StudentCreate.parent_id student_data)
        (StudentCreate.date_of_birth student_data)
        (StudentCreate.address student_data)
        (StudentCreate.phone student_data) now /\
  db' = set_students (students db ++ [s]) db.
Proof.
  unfold create_student.
  destruct (negb _) eqn:G; [discriminate|].
  intros [= <- <-]. split; [now apply gate_may_write|]. split; reflexivity.
Qed.

Lemma create_student_allowed (uuid : string) (now : datetime)
    (student_data : StudentCreate.t) (current_user : UserDoc.t) (db : DB) :
  may_write current_user ->
  exists s,
    create_student uuid now student_data current_user db =
      (Return s, set_students (students db ++ [s]) db).
Proof.
  intros Hrole. unfold create_student.
  rewrite (may_write_gate current_user Hrole). eexists. reflexivity.
Qed.

Lemma count_with_id_fresh (uuid : string) (ss : list Student.t) :
  (forall s, In s ss -> Student.id s <> uuid) ->
  Collection.count_documents (student_with_id uuid) ss = 0%nat.
Proof.
  unfold Collection.count_documents.
  induction ss as [|e ss IH]; intros H; simpl; [reflexivity|].
  assert (E : student_with_id uuid e = false).
  { apply student_with_id_false. apply H. now left. }
  rewrite E. apply IH. intros s Hs. apply H. now right.
Qed.

(** C7.  When an admin or a teacher creates a student from the fields
    [student_data], the create succeeds, and a get by the returned id,
    by any reader, succeeds with the very entity that was returned: its
    eight payload fields are those of [student_data], its id is the
    generated one and belongs to no other stored student, and its
    [created_at] is the instant of the create. *)
Theorem create_student_round_trip (uuid : string) (now : datetime)
    (student_data : StudentCreate.t) (current_user reader : UserDoc.t)
    (db : DB) :
  may_write current_user ->
  fresh_id uuid db ->
  exists s db',
    create_student uuid now student_data current_user db = (Return s, db') /\
    get_student (Student.id s) reader db' = Return s /\
    carries student_data s /\
    Student.id s = uuid /\
    Student.created_at s = now /\
    Collection.count_documents (student_with_id (Student.id s)) (students db')
      = 1%nat.
Proof.
  intros Hrole Hfresh.
  destruct (create_student_allowed uuid now student_data current_user db Hrole)
    as [s Hcreate].
  destruct (create_student_returns _ _ _ _ _ _ _ Hcreate) as (_ & Hs & _).
  exists s, (set_students (students db ++ [s]) db).
  assert (Hid : Student.id s = uuid) by now rewrite Hs.
  split; [exact Hcreate|]. split; [|split; [|split; [|split]]].
  - unfold get_student. simpl students. rewrite Hid.
    change (students db ++ [s]) with (Collection.insert_one s (students db)).
    rewrite find_one_insert_one.
    assert (E : Collection.find_one (student_with_id uuid) (students db) = None).
    { apply find_one_absent. intros x Hx. apply student_with_id_false.
      now apply Hfresh. }
    rewrite E.
    assert (E' : student_with_id uuid s = true)
      by now apply student_with_id_true.
    now rewrite E'.
  - rewrite Hs. repeat split.
  - exact Hid.
  - now rewrite Hs.
  - simpl students. rewrite Hid. unfold Collection.count_documents.
    rewrite filter_app, length_app. fold (Collection.count_documents
      (student_with_id uuid) (students db)).
    rewrite (count_with_id_fresh uuid (students db) Hfresh). simpl.
    assert (E' : student_with_id uuid s = true)
      by now apply student_with_id_true.
    now rewrite E'.
Qed.

Lemma dashboard_student (today : string) (current_user : UserDoc.t) (db : DB) :
  UserDoc.role current_user = "student" ->
  get_dashboard_stats today current_user db =
  match Collection.find_one (student_of_user current_user) (students db) with
  | Some student =>
      Return
        [ ("total_attendance",
           Collection.count_documents
             (fun a => String.eqb (Attendance.student_id a) (Student.id student))
             (attendance db));
          ("present_days",
           Collection.count_documents
             (fun a => String.eqb (Attendance.student_id a) (Student.id student)
                       && String.eqb (Attendance.status a) "present")
             (attendance db));
          ("total_grades",
           Collection.count_documents
             (fun g => String.eqb (Grade.student_id g) (Student.id student))
             (grades db)) ]
  | None => Return []
  end.
Proof.
  intros Hrole. unfold get_dashboard_stats. rewrite Hrole. reflexivity.
Qed.

(** C9.  A create that succeeds stores a student whose [user_id] is
    the id of the caller who made the request, whatever the payload
    says; and the dashboard of a student-role caller is looked up on
    that same field: it is empty exactly when no stored student has the
    caller's id as [user_id]. *)
Theorem create_student_user_id (uuid : string) (now : datetime)
    (student_data : StudentCreate.t) (current_user : UserDoc.t) (db db' : DB)
    (s : Student.t) :
  create_student uuid now student_data current_user db = (Return s, db') ->
  Student.user_id s = UserDoc.id current_user /\
  In s (students db') /\
  forall (today : string) (caller : UserDoc.t),
    UserDoc.role caller = "student" ->
    (get_dashboard_stats today caller db' = Return [] <->
     forall s', In s' (students db') -> Student.user_id s' <> UserDoc.id caller).
Proof.
  intros Hcreate.
  destruct (create_student_returns _ _ _ _ _ _ _ Hcreate) as (_ & Hs & Hdb).
  split; [now rewrite Hs|]. split.
  - rewrite Hdb. simpl. apply in_or_app. right. now left.
  - intros today caller Hrole.
    rewrite (dashboard_student today caller db' Hrole).
    destruct (Collection.find_one (student_of_user caller) (students db'))
      as [st|] eqn:E.
    + split; [discriminate|]. intros Hnone.
      apply find_one_In in E. destruct E as [Hin Hq].
      apply String.eqb_eq in Hq. now elim (Hnone st Hin).
    + split; [|reflexivity]. intros _ s' Hs'.
      rewrite find_one_absent in E. specialize (E s' Hs').
      now apply String.eqb_neq in E.
Qed.

Lemma update_student_returns (student_id : string)
    (student_data : StudentCreate.t) (current_user : UserDoc.t) (db db' : DB)
    (s : Student.t) :
  update_student student_id student_data current_user db = (Return s, db') ->
  exists old pre post,
    students db = pre ++ old :: post /\
    (forall x, In x pre -> Student.id x <> student_id) /\
    Student.id old = student_id /\
    s = set_update_data student_data old /\
    db' = set_students (pre ++ s :: post) db.
Proof.
  unfold update_student.
  destruct (negb _); [discriminate|].
  destruct (Collection.find_one _ (students db)) as [old|] eqn:E; [|discriminate].
  destruct (update_one_present _ (set_update_data student_data) _ _ E)
    as (pre & post & Hc & Hpre & Hupd).
  apply find_one_In in E. destruct E as [_ Hold].
  simpl students. rewrite Hupd.
  unfold Collection.find_one.
  rewrite (find_app_first (student_with_id student_id) pre post
             (set_update_data student_data old) Hpre Hold).
  intros [= <- <-]. exists old, pre, post.
  split; [exact Hc|]. split; [|split; [|split; reflexivity]].
  - intros x Hx. apply student_with_id_false. now apply Hpre.
  - now apply student_with_id_true.
Qed.

(** C10.  An update that succeeds rewrites one stored student, the
    first with the given id, and only in the eight fields of the
    payload: the returned record has them from [student_data] and has
    the id, [user_id] and [created_at] of the record it replaces;
    every other student and every other collection is as before. *)
Theorem update_student_frame (student_id : string)
    (student_data : StudentCreate.t) (current_user : UserDoc.t) (db db' : DB)
    (s : Student.t) :
  update_student student_id student_data current_user db = (Return s, db') ->
  exists old pre post,
    students db = pre ++ old :: post /\
    students db' = pre ++ s :: post /\
    carries student_data s /\
    Student.id s = Student.id old /\
    Student.user_id s = Student.user_id old /\
    Student.created_at s = Student.created_at old /\
    Student.id old = student_id /\
    users db' = users db /\
    attendance db' = attendance db /\
    grades db' = grades db /\
    announcements db' = announcements db.
Proof.
  intros Hupd.
  destruct (update_student_returns _ _ _ _ _ _ Hupd)
    as (old & pre & post & Hc & _ & Hid & Hs & Hdb).
  exists old, pre, post. rewrite Hdb, Hs. simpl.
  repeat split; assumption.
Qed.

Lemma update_student_allowed (student_id : string)
    (student_data : StudentCreate.t) (current_user : UserDoc.t) (db : DB) :
  may_write current_user ->
  has_student student_id db ->
  exists s db',
    update_student student_id student_data current_user db = (Return s, db').
Proof.
  intros Hrole (x & Hx & Hid). unfold update_student.
  rewrite (may_write_gate current_user Hrole).
  apply student_with_id_true in Hid.
  destruct (find_one_present _ _ x Hx Hid) as [old E]. rewrite E.
  destruct (update_one_present _ (set_update_data student_data) _ _ E)
    as (pre & post & Hc & Hpre & Hupd).
  apply find_one_In in E. destruct E as [_ Hold].
  simpl students. rewrite Hupd. unfold Collection.find_one.
  rewrite (find_app_first (student_with_id student_id) pre post
             (set_update_data student_data old) Hpre Hold).
  eexists. eexists. reflexivity.
Qed.

(** ** Dashboard of a student *)

(** C8.  For a caller of role student the dashboard never raises.  If
    no stored student has the caller's id as [user_id], the stats are
    the empty dictionary.  Otherwise they are, for the first such
    student, the number of its attendance records, the number of those
    marked present, and the number of its grades. *)
Theorem dashboard_stats_student (today : string) (current_user : UserDoc.t)
    (db : DB) :
  UserDoc.role current_user = "student" ->
  is_return (get_dashboard_stats today current_user db) = true /\
  ((forall s, In s (students db) ->
              Student.user_id s <> UserDoc.id current_user) ->
   get_dashboard_stats today current_user db = Return []) /\
  ((exists s, In s (students db) /\
              Student.user_id s = UserDoc.id current_user) ->
   exists student,
     Collection.find_one (student_of_user current_user) (students db)
       = Some student /\
     In student (students db) /\
     Student.user_id student = UserDoc.id current_user /\
     get_dashboard_stats today current_user db =
       Return
         [ ("total_attendance",
            List.length
              (filter (fun a => String.eqb (Attendance.student_id a)
                                           (Student.id student))
                      (attendance db)));
           ("present_days",
            List.length
              (filter (fun a => String.eqb (Attendance.student_id a)
                                           (Student.id student)
                                && String.eqb (Attendance.status a) "present")
                      (attendance db)));
           ("total_grades",
            List.length
              (filter (fun g => String.eqb (Grade.student_id g)
                                           (Student.id student))
                      (grades db))) ]).
Proof.
  intros Hrole. rewrite (dashboard_student today current_user db Hrole).
  split; [|split].
  - destruct (Collection.find_one _ _); reflexivity.
  - intros Hnone.
    assert (E : Collection.find_one (student_of_user current_user) (students db)
                = None).
    { apply find_one_absent. intros s Hs. apply String.eqb_neq.
      now apply Hnone. }
    now rewrite E.
  - intros (s & Hs & Hid).
    assert (Hq : student_of_user current_user s = true)
      by now apply String.eqb_eq.
    destruct (find_one_present _ _ s Hs Hq) as [student E].
    exists student. rewrite E.
    destruct (find_one_In _ _ _ E) as [Hin Hq'].
    apply String.eqb_eq in Hq'. repeat split; assumption.
Qed.

(** ** Announcements *)

Lemma opt_eqb_eq (a b : option string) : opt_eqb a b = true <-> a = b.
Proof.
  destruct a as [x|], b as [y|]; simpl; try (split; congruence).
  rewrite String.eqb_eq. split; congruence.
Qed.

Lemma announcement_query_visible (current_user : UserDoc.t)
    (a : Announcement.t) :
  announcement_query current_user a = true <-> visible current_user a.
Proof.
  unfold announcement_query, visible.
  destruct (String.eqb_spec (UserDoc.role current_user) "admin") as [E|E];
    simpl.
  - split; [now left | reflexivity].
  - rewrite orb_true_iff, !opt_eqb_eq.
    split; [intros H; now right | intros [H | H]; [contradiction | exact H]].
Qed.

Section SortFacts.
Context {D : Type} (key : D -> Z).

Lemma insert_desc_perm (d : D) (c : list D) :
  Permutation (Collection.insert_desc key d c) (d :: c).
Proof.
  induction c as [|e c IH]; simpl; [reflexivity|].
  destruct (key e <=? key d); [reflexivity|].
  rewrite IH. apply perm_swap.
Qed.

Lemma sort_desc_perm (c : list D) :
  Permutation (Collection.sort_desc key c) c.
Proof.
  induction c as [|e c IH]; simpl; [reflexivity|].
  rewrite insert_desc_perm. now constructor.
Qed.

Lemma insert_desc_sorted (d : D) (c : list D) :
  StronglySorted (Collection.descending key) c ->
  StronglySorted (Collection.descending key) (Collection.insert_desc key d c).
Proof.
  induction 1 as [|e c Hc IH He]; simpl.
  - repeat constructor.
  - destruct (Z.leb_spec (key e) (key d)) as [Hle|Hgt].
    + constructor; [now constructor|].
      constructor; [exact Hle|].
      rewrite Forall_forall in He |- *. intros x Hx.
      specialize (He x Hx). unfold Collection.descending in He |- *. lia.
    + constructor; [exact IH|].
      rewrite Forall_forall in He |- *. intros x Hx.
      apply (Permutation_in _ (insert_desc_perm d c)) in Hx.
      destruct Hx as [<-|Hx]; [unfold Collection.descending; lia | now apply He].
Qed.

Lemma sort_desc_sorted (c : list D) :
  StronglySorted (Collection.descending key) (Collection.sort_desc key c).
Proof.
  induction c as [|e c IH]; simpl; [constructor|].
  now apply insert_desc_sorted.
Qed.

End SortFacts.

(** C6.  The listing never raises.  Its result [l] is the head, at most
    100 long, of the newest-first arrangement [l ++ older] of exactly
    the stored announcements the caller may see: all of them for an
    admin, otherwise those with no [target_role] or with the caller's
    role.  [older] is empty unless more than 100 are visible.  For a
    parent in particular nothing addressed to teachers is listed, and
    every stored broadcast or parent announcement is in [l ++ older]. *)
Theorem get_announcements_by_role (current_user : UserDoc.t) (db : DB) :
  exists l older,
    get_announcements current_user db = Return l /\
    List.length l = Nat.min 100 (List.length (l ++ older)) /\
    newest_first (l ++ older) /\
    Permutation (l ++ older)
      (filter (announcement_query current_user) (announcements db)) /\
    (forall a, In a (l ++ older) <->
               In a (announcements db) /\ visible current_user a) /\
    ((Collection.count_documents (announcement_query current_user)
        (announcements db) <= 100)%nat -> older = []) /\
    (UserDoc.role current_user = "admin" ->
     Permutation (l ++ older) (announcements db)) /\
    (UserDoc.role current_user = "parent" ->
     forall a, In a (announcements db) ->
       (Announcement.target_role a = Some "teacher" -> ~ In a l) /\
       (Announcement.target_role a = None \/
        Announcement.target_role a = Some "parent" -> In a (l ++ older))).
Proof.
  set (shown := filter (announcement_query current_user) (announcements db)).
  set (sorted := Collection.sort_desc Announcement.created_at shown).
  exists (firstn 100 sorted), (skipn 100 sorted).
  rewrite firstn_skipn.
  assert (Hperm : Permutation sorted shown) by apply sort_desc_perm.
  assert (Hin : forall a, In a sorted <->
                          In a (announcements db) /\ visible current_user a).
  { intros a. rewrite <- announcement_query_visible.
    unfold shown in Hperm. rewrite <- filter_In. split.
    - apply Permutation_in. exact Hperm.
    - apply Permutation_in. symmetry. exact Hperm. }
  split; [reflexivity|]. split; [apply length_firstn|].
  split; [apply sort_desc_sorted|]. split; [exact Hperm|].
  split; [exact Hin|]. split; [|split].
  - intros Hfew. apply skipn_all2.
    rewrite (Permutation_length Hperm). exact Hfew.
  - intros Hadmin. rewrite Hperm. unfold shown.
    assert (E : forall c, filter (announcement_query current_user) c = c).
    { induction c as [|e c IH]; simpl; [reflexivity|].
      unfold announcement_query at 1. rewrite Hadmin. simpl. now rewrite IH. }
    now rewrite E.
  - intros Hparent a Ha. split.
    + intros Hteacher Hl.
      assert (Hs : In a sorted).
      { rewrite <- (firstn_skipn 100 sorted). apply in_or_app. now left. }
      apply Hin in Hs. destruct Hs as [_ [Hv | [Hv | Hv]]].
      * rewrite Hparent in Hv. discriminate.
      * rewrite Hteacher in Hv. discriminate.
      * rewrite Hteacher, Hparent in Hv. discriminate.
    + intros Hv. apply Hin. split; [exact Ha|]. unfold visible.
      rewrite Hparent. right. exact Hv.
Qed.

(** ** Registration, login and the token *)

Lemma numeric_date_gt (d : datetime) :
  d - microseconds_per_second < jwt.numeric_date d * microseconds_per_second.
Proof.
  unfold jwt.numeric_date, microseconds_per_second.
  pose proof (Z.mod_pos_bound d 1000000 eq_refl) as Hm.
  pose proof (Z.div_mod d 1000000) as Hd.
  lia.
Qed.

Lemma decode_issued_live (issued now : datetime) (data : jwt.claims) :
  within_lifetime issued now ->
  jwt.decode now (create_access_token issued data) JWT_SECRET [JWT_ALGORITHM] =
    inl (jwt.mkClaims (jwt.sub data) (jwt.role data)
           (Some (jwt.numeric_date (issued + timedelta_hours JWT_EXPIRATION_HOURS)))).
Proof.
  intros Hlive. unfold create_access_token, jwt.encode, jwt.decode.
  simpl str_in. rewrite String.eqb_refl. simpl negb. cbv iota.
  unfold jwt.expired. simpl jwt.exp.
  pose proof (numeric_date_gt (issued + timedelta_hours JWT_EXPIRATION_HOURS)) as Hgt.
  unfold within_lifetime in Hlive.
  assert (E : (jwt.numeric_date (issued + timedelta_hours JWT_EXPIRATION_HOURS)
               * microseconds_per_second <=? now) = false)
    by (apply Z.leb_gt; lia).
  cbv zeta iota. now rewrite E.
Qed.

Lemma find_unique {D : Type} (k : D -> string) (c : list D) (d : D) :
  NoDup (map k c) -> In d c ->
  Collection.find_one (fun x => String.eqb (k x) (k d)) c = Some d.
Proof.
  unfold Collection.find_one.
  induction c as [|e c IH]; simpl; intros Hnd Hin; [contradiction|].
  inversion Hnd as [|? ? Hnotin Hnd']; subst.
  destruct Hin as [-> | Hin].
  - now rewrite String.eqb_refl.
  - destruct (String.eqb_spec (k e) (k d)) as [E|_]; [|now apply IH].
    exfalso. apply Hnotin. rewrite E. now apply in_map.
Qed.

Lemma get_current_user_issued (issued now : datetime) (u : UserDoc.t) (db : DB)
    (role : option string) :
  within_lifetime issued now ->
  Collection.find_one (fun x => String.eqb (UserDoc.id x) (UserDoc.id u))
    (users db) = Some u ->
  get_current_user now
    (create_access_token issued (jwt.mkClaims (Some (UserDoc.id u)) role None)) db
  = Return u.
Proof.
  intros Hlive Hfind. unfold get_current_user, get_current_user_try.
  rewrite (decode_issued_live issued now _ Hlive). simpl.
  now rewrite Hfind.
Qed.

Lemma register_success (uuid : string) (now : datetime) (salt : string)
    (user_data : UserCreate.t) (db db1 : DB) (u : User.t) :
  register uuid now salt user_data db = (Return u, db1) ->
  let doc :=
    UserDoc.mk uuid (UserCreate.username user_data) (UserCreate.role user_data)
      (UserCreate.full_name user_data) (UserCreate.email user_data) now
      (hash_password salt (UserCreate.password user_data)) in
  Collection.find_one
    (fun x => String.eqb (UserDoc.username x) (UserCreate.username user_data))
    (users db) = None /\
  u = User_of_doc doc /\
  db1 = set_users (Collection.insert_one doc (users db)) db.
Proof.
  unfold register.
  destruct (Collection.find_one _ (users db)) as [x|] eqn:E; [discriminate|].
  intros [= <- <-]. repeat split.
Qed.

(** X1.  Register, then log in.  With a hasher whose hashes verify, a
    registration that went through can be followed, at any time, by a
    login under the same username and password: it succeeds with a
    bearer token and the very user the registration returned. *)
Theorem register_then_login (uuid : string) (now : datetime) (salt : string)
    (user_data : UserCreate.t) (db db1 : DB) (u : User.t) (later : datetime) :
  hasher_correct ->
  register uuid now salt user_data db = (Return u, db1) ->
  exists token,
    login later
      (UserLogin.mk (UserCreate.username user_data) (UserCreate.password user_data))
      db1
    = Return (mkLoginResponse token "bearer" u) /\
    token = create_access_token later
              (jwt.mkClaims (Some (User.id u)) (Some (User.role u)) None).
Proof.
  intros Hhash Hreg.
  destruct (register_success _ _ _ _ _ _ _ Hreg) as (Hfree & -> & ->).
  eexists. split; [|reflexivity].
  unfold login. simpl users. simpl UserLogin.username. simpl UserLogin.password.
  rewrite find_one_insert_one, Hfree. simpl UserDoc.username.
  rewrite String.eqb_refl. simpl UserDoc.password.
  rewrite (Hhash salt (UserCreate.password user_data)). reflexivity.
Qed.

(** X2.  Unique usernames are an invariant of registration: whatever
    the request and whether it is accepted or refused, a database whose
    usernames are pairwise different stays so. *)
Theorem register_keeps_usernames_unique (uuid : string) (now : datetime)
    (salt : string) (user_data : UserCreate.t) (db : DB) :
  unique_usernames db ->
  unique_usernames (snd (register uuid now salt user_data db)).
Proof.
  unfold unique_usernames, register. intros Hnd.
  destruct (Collection.find_one _ (users db)) as [x|] eqn:E; [exact Hnd|].
  simpl. unfold Collection.insert_one. rewrite map_app. simpl.
  apply NoDup_rev in Hnd. rewrite <- (rev_involutive (_ ++ _)).
  apply NoDup_rev. rewrite rev_app_distr. simpl. constructor; [|exact Hnd].
  rewrite <- in_rev. intros Hin. apply in_map_iff in Hin.
  destruct Hin as (y & Hname & Hy).
  rewrite find_one_absent in E. specialize (E y Hy). simpl in E.
  rewrite Hname, String.eqb_refl in E. discriminate.
Qed.

(** X3.  The token of a login is good for the coming 24 hours: on a
    database with unique user ids, presenting it up to a second before
    the 24 hours are over authenticates as the stored user that logged
    in, and the current-user route answers with the user the login
    response carried. *)
Theorem login_token_authenticates (now later : datetime)
    (login_data : UserLogin.t) (db : DB) (r : LoginResponse) :
  unique_user_ids db ->
  within_lifetime now later ->
  login now login_data db = Return r ->
  exists u,
    In u (users db) /\
    UserDoc.username u = UserLogin.username login_data /\
    get_current_user later (access_token r) db = Return u /\
    Depends later (access_token r) db get_me = Return (user r).
Proof.
  intros Hnd Hlive. unfold login.
  destruct (Collection.find_one _ (users db)) as [u|] eqn:E; [|discriminate].
  destruct (negb _); [discriminate|]. intros [= <-].
  destruct (find_one_In _ _ _ E) as [Hin Hname].
  apply String.eqb_eq in Hname.
  assert (Hget : get_current_user later
                   (create_access_token now
                      (jwt.mkClaims (Some (UserDoc.id u)) (Some (UserDoc.role u)) None))
                   db = Return u).
  { apply get_current_user_issued; [exact Hlive|].
    now apply (find_unique UserDoc.id). }
  exists u. simpl access_token. simpl user. unfold Depends.
  rewrite Hget. repeat split; assumption.
Qed.

(** X4.  What the authentication dependency lets through.  Whenever it
    returns a user, that user is stored, the token was signed under the
    server's secret with HS256, is not expired, and names the user's id
    as its subject.  Whenever it raises, the token either was signed
    under the server's secret with HS256 and has expired, and the
    answer is 401 "Token has expired", or the answer is the unhandled
    500: no other 401 ever leaves the dependency. *)
Theorem get_current_user_sound (now : datetime) (token : jwt.token) (db : DB) :
  match get_current_user now token db with
  | Return u =>
      In u (users db) /\
      exists payload,
        token = jwt.Signed JWT_SECRET JWT_ALGORITHM payload /\
        jwt.expired now payload = false /\
        jwt.sub payload = Some (UserDoc.id u)
  | Raise e =>
      (e = mkHTTPException 401 "Token has expired" /\
       exists payload,
         token = jwt.Signed JWT_SECRET JWT_ALGORITHM payload /\
         jwt.expired now payload = true) \/
      e = unhandled
  end.
Proof.
  unfold get_current_user, get_current_user_try, jwt.decode.
  destruct token as [raw | key alg payload]; [now right|].
  unfold str_in. simpl existsb. rewrite orb_false_r.
  destruct (String.eqb_spec alg JWT_ALGORITHM) as [-> | _]; [|now right].
  destruct (String.eqb_spec key JWT_SECRET) as [-> | _]; [|now right].
  simpl negb. cbv iota.
  destruct (jwt.expired now payload) eqn:Hexp.
  { left. split; [reflexivity|]. now exists payload. }
  destruct (jwt.sub payload) as [user_id|] eqn:Hsub; [|now right].
  destruct (Collection.find_one _ (users db)) as [u|] eqn:E; [|now right].
  destruct (find_one_In _ _ _ E) as [Hin Hid]. apply String.eqb_eq in Hid.
  split; [exact Hin|]. exists payload. rewrite Hid. repeat split; assumption.
Qed.

(** X5.  The claims of an issued token.  Decoded within its lifetime, a
    token gives back the subject and the role it was issued for, and an
    expiry 24 hours after issue, in whole seconds, whatever expiry the
    data may have carried. *)
Theorem create_access_token_round_trip (issued now : datetime)
    (data : jwt.claims) :
  within_lifetime issued now ->
  exists payload,
    jwt.decode now (create_access_token issued data) JWT_SECRET [JWT_ALGORITHM]
    = inl payload /\
    jwt.sub payload = jwt.sub data /\
    jwt.role payload = jwt.role data /\
    jwt.exp payload = Some ((issued + 24 * 3600 * 1000000) / 1000000).
Proof.
  intros Hlive. eexists. split; [exact (decode_issued_live issued now data Hlive)|].
  repeat split.
Qed.

(** ** The writers and their role gate *)

Lemma not_may_write_gate (current_user : UserDoc.t) :
  ~ may_write current_user ->
  negb (str_in (UserDoc.role current_user) ["admin"; "teacher"]) = true.
Proof.
  intros H.
  destruct (negb (str_in (UserDoc.role current_user) ["admin"; "teacher"]))
    eqn:G; [reflexivity|].
  elim H. now apply gate_may_write.
Qed.

(** X6.  The five writing routes open to admins and teachers refuse
    every other role with 403 "Not authorized" before they look at
    anything else, an update of an id that does not exist included, and
    leave the database as it was. *)
Theorem writers_forbidden (current_user : UserDoc.t) (db : DB)
    (uuid : string) (now : datetime) (student_id : string)
    (student_data : StudentCreate.t) (attendance_data : AttendanceCreate.t)
    (grade_data : GradeCreate.t) (announcement_data : AnnouncementCreate.t) :
  ~ may_write current_user ->
  create_student uuid now student_data current_user db =
    (Raise (mkHTTPException 403 "Not authorized"), db) /\
  update_student student_id student_data current_user db =
    (Raise (mkHTTPException 403 "Not authorized"), db) /\
  mark_attendance uuid now attendance_data current_user db =
    (Raise (mkHTTPException 403 "Not authorized"), db) /\
  add_grade uuid now grade_data current_user db =
    (Raise (mkHTTPException 403 "Not authorized"), db) /\
  create_announcement uuid now announcement_data current_user db =
    (Raise (mkHTTPException 403 "Not authorized"), db).
Proof.
  intros H. apply not_may_write_gate in H.
  unfold create_student, update_student, mark_attendance, add_grade,
    create_announcement.
  rewrite H. repeat split.
Qed.

Lemma mark_attendance_allowed (uuid : string) (now : datetime)
    (attendance_data : AttendanceCreate.t) (current_user : UserDoc.t) (db : DB) :
  may_write current_user ->
  let a :=
    Attendance.mk uuid
      (AttendanceCreate.student_id attendance_data)
      (AttendanceCreate.student_name attendance_data)
      (AttendanceCreate.date attendance_data)
      (AttendanceCreate.status attendance_data)
      (AttendanceCreate.subject attendance_data)
      (UserDoc.id current_user) now in
  mark_attendance uuid now attendance_data current_user db =
    (Return a, set_attendance (attendance db ++ [a]) db).
Proof.
  intros Hrole. unfold mark_attendance.
  now rewrite (may_write_gate current_user Hrole).
Qed.

(** X7.  Attendance is not checked for duplicates.  An admin or teacher
    who marks the same attendance twice is answered with a record both
    times, and the collection ends with the two new records, both
    carrying the request's fields and the caller's id as [marked_by]. *)
Theorem mark_attendance_twice (uuid1 uuid2 : string) (now1 now2 : datetime)
    (attendance_data : AttendanceCreate.t) (current_user : UserDoc.t) (db : DB) :
  may_write current_user ->
  exists a1 a2 db1 db2,
    mark_attendance uuid1 now1 attendance_data current_user db = (Return a1, db1) /\
    mark_attendance uuid2 now2 attendance_data current_user db1 = (Return a2, db2) /\
    attendance db2 = attendance db ++ [a1; a2] /\
    carries_attendance attendance_data a1 /\
    carries_attendance attendance_data a2 /\
    Attendance.marked_by a1 = UserDoc.id current_user /\
    Attendance.marked_by a2 = UserDoc.id current_user /\
    Attendance.id a1 = uuid1 /\ Attendance.id a2 = uuid2.
Proof.
  intros Hrole.
  do 4 eexists.
  split; [exact (mark_attendance_allowed uuid1 now1 attendance_data current_user
                   db Hrole)|].
  split; [exact (mark_attendance_allowed uuid2 now2 attendance_data current_user
                   _ Hrole)|].
  simpl attendance. rewrite <- app_assoc. simpl.
  repeat split.
Qed.

(** ** Listing attendance and grades *)

Lemma optional_filter_true {D : Type} (field : D -> string) (o : option string)
    (d : D) :
  optional_filter field o d = true <->
  (forall x, o = Some x -> x <> "" -> field d = x).
Proof.
  unfold optional_filter, truthy. destruct o as [x|].
  - destruct (String.eqb_spec x "") as [-> | Hne]; simpl.
    + split; [|reflexivity]. intros _ y [= <-] Hy. now elim Hy.
    + rewrite String.eqb_eq. split.
      * intros H y [= <-] _. exact H.
      * intros H. now apply H.
  - split; [|reflexivity]. intros _ x Hx. discriminate Hx.
Qed.

Lemma firstn_incl {D : Type} (n : nat) (l : list D) (d : D) :
  In d (firstn n l) -> In d l.
Proof.
  intros H. rewrite <- (firstn_skipn n l). apply in_or_app. now left.
Qed.

(** X8.  The attendance listing answers with at most 1000 stored
    records, in the order they were stored, each of which has the
    student id and the date asked for, where a parameter that is absent
    or empty asks for nothing; when no more than 1000 records match,
    all of them are listed. *)
Theorem get_attendance_filters (student_id date : option string)
    (current_user : UserDoc.t) (db : DB) :
  exists l,
    get_attendance student_id date current_user db = Return l /\
    (List.length l <= 1000)%nat /\
    (exists rest, l ++ rest = filter (attendance_query student_id date)
                                     (attendance db)) /\
    (forall a, In a l ->
       In a (attendance db) /\
       (forall x, student_id = Some x -> x <> "" -> Attendance.student_id a = x) /\
       (forall x, date = Some x -> x <> "" -> Attendance.date a = x)) /\
    ((Collection.count_documents (attendance_query student_id date)
        (attendance db) <= 1000)%nat ->
     l = filter (attendance_query student_id date) (attendance db)).
Proof.
  eexists. split; [reflexivity|]. unfold Collection.find_to_list.
  split; [rewrite length_firstn; apply Nat.le_min_l|].
  split; [eexists; apply firstn_skipn|]. split.
  - intros a Ha. apply firstn_incl in Ha. apply filter_In in Ha.
    destruct Ha as [Hin Hq]. unfold attendance_query in Hq.
    apply andb_true_iff in Hq. destruct Hq as [H1 H2].
    split; [exact Hin|]. split.
    + now apply (optional_filter_true Attendance.student_id).
    + now apply (optional_filter_true Attendance.date).
  - intros Hfew. now apply firstn_all2.
Qed.

(** An empty string as a query parameter filters nothing: the
    attendance and grade listings answer it as they answer a missing
    parameter. *)
Remark empty_filter_is_no_filter (date : option string)
    (current_user : UserDoc.t) (db : DB) :
  get_attendance (Some "") date current_user db =
    get_attendance None date current_user db /\
  get_attendance date (Some "") current_user db =
    get_attendance date None current_user db /\
  get_grades (Some "") current_user db = get_grades None current_user db.
Proof.
  repeat split.
Qed.

Lemma find_to_list_insert_one {D : Type} (q : D -> bool) (n : nat) (c : list D)
    (d : D) :
  q d = true ->
  (Collection.count_documents q c < n)%nat ->
  Collection.find_to_list q n (Collection.insert_one d c) =
    Collection.find_to_list q n c ++ [d].
Proof.
  unfold Collection.find_to_list, Collection.insert_one, Collection.count_documents.
  intros Hq Hlt. rewrite filter_app. simpl. rewrite Hq.
  rewrite firstn_all2 by (rewrite length_app; simpl; lia).
  rewrite (firstn_all2 (filter q c)) by lia. reflexivity.
Qed.

Lemma optional_filter_self {D : Type} (field : D -> string) (d : D) :
  optional_filter field (Some (field d)) d = true.
Proof.
  unfold optional_filter, truthy.
  destruct (negb (String.eqb (field d) "")); [apply String.eqb_refl | reflexivity].
Qed.

Lemma attendance_query_self (a : Attendance.t) :
  attendance_query (Some (Attendance.student_id a)) (Some (Attendance.date a)) a
  = true.
Proof.
  unfold attendance_query.
  rewrite (optional_filter_self Attendance.student_id a).
  exact (optional_filter_self Attendance.date a).
Qed.

(** X9.  Marking, then listing.  After an admin or teacher has marked
    an attendance, the listing for that student and that date is the
    listing of before followed by the new record, as long as fewer than
    1000 records matched before. *)
Theorem mark_attendance_then_get (uuid : string) (now : datetime)
    (attendance_data : AttendanceCreate.t) (current_user reader : UserDoc.t)
    (db : DB) :
  may_write current_user ->
  (Collection.count_documents
     (attendance_query (Some (AttendanceCreate.student_id attendance_data))
                       (Some (AttendanceCreate.date attendance_data)))
     (attendance db) < 1000)%nat ->
  exists a db' l,
    mark_attendance uuid now attendance_data current_user db = (Return a, db') /\
    get_attendance (Some (AttendanceCreate.student_id attendance_data))
      (Some (AttendanceCreate.date attendance_data)) reader db = Return l /\
    get_attendance (Some (AttendanceCreate.student_id attendance_data))
      (Some (AttendanceCreate.date attendance_data)) reader db'
    = Return (l ++ [a]).
Proof.
  intros Hrole Hfew. do 3 eexists.
  split; [exact (mark_attendance_allowed uuid now attendance_data current_user
                   db Hrole)|].
  split; [reflexivity|].
  unfold get_attendance. simpl attendance.
  change (attendance db ++ [?a]) with (Collection.insert_one a (attendance db)).
  rewrite find_to_list_insert_one; [reflexivity | | exact Hfew].
  exact (attendance_query_self
           (Attendance.mk uuid
              (AttendanceCreate.student_id attendance_data)
              (AttendanceCreate.student_name attendance_data)
              (AttendanceCreate.date attendance_data)
              (AttendanceCreate.status attendance_data)
              (AttendanceCreate.subject attendance_data)
              (UserDoc.id current_user) now)).
Qed.

(** X10.  Adding a grade, then listing.  A grade added by an admin or
    teacher carries the request's fields and the caller's id as
    [teacher_id], and the listing for its student is the listing of
    before followed by it, as long as fewer than 1000 grades matched
    before. *)
Theorem add_grade_then_get (uuid : string) (now : datetime)
    (grade_data : GradeCreate.t) (current_user reader : UserDoc.t) (db : DB) :
  may_write current_user ->
  (Collection.count_documents
     (optional_filter Grade.student_id (Some (GradeCreate.student_id grade_data)))
     (grades db) < 1000)%nat ->
  exists g db' l,
    add_grade uuid now grade_data current_user db = (Return g, db') /\
    carries_grade grade_data g /\
    Grade.teacher_id g = UserDoc.id current_user /\
    get_grades (Some (GradeCreate.student_id grade_data)) reader db = Return l /\
    get_grades (Some (GradeCreate.student_id grade_data)) reader db'
    = Return (l ++ [g]).
Proof.
  intros Hrole Hfew. unfold add_grade.
  rewrite (may_write_gate current_user Hrole). do 3 eexists.
  split; [reflexivity|]. split; [repeat split|]. split; [reflexivity|].
  split; [reflexivity|].
  unfold get_grades. simpl grades.
  rewrite find_to_list_insert_one; [reflexivity | | exact Hfew].
  exact (optional_filter_self Grade.student_id
           (Grade.mk uuid
              (GradeCreate.student_id grade_data)
              (GradeCreate.student_name grade_data)
              (GradeCreate.subject grade_data)
              (GradeCreate.exam_type grade_data)
              (GradeCreate.marks grade_data)
              (GradeCreate.max_marks grade_data)
              (GradeCreate.date grade_data)
              (UserDoc.id current_user) now)).
Qed.

(** ** Posting announcements *)

Lemma sort_desc_newest {D : Type} (key : D -> Z) (c : list D) (d : D) :
  (forall x, In x c -> key x < key d) ->
  Collection.sort_desc key (c ++ [d]) = d :: Collection.sort_desc key c.
Proof.
  unfold Collection.sort_desc. intros Hnew.
  rewrite fold_right_app. simpl.
  induction c as [|e c IH]; simpl; [reflexivity|].
  rewrite IH by (intros x Hx; apply Hnew; now right).
  simpl. assert (E : (key d <=? key e) = false).
  { apply Z.leb_gt. apply Hnew. now left. }
  now rewrite E.
Qed.

Lemma filter_insert_one {D : Type} (q : D -> bool) (c : list D) (d : D) :
  filter q (Collection.insert_one d c) =
  if q d then filter q c ++ [d] else filter q c.
Proof.
  unfold Collection.insert_one. rewrite filter_app. simpl.
  destruct (q d); [reflexivity | apply app_nil_r].
Qed.

(** X11.  A new announcement heads the list.  When an admin or teacher
    posts an announcement at an instant later than every stored one, it
    carries the caller's full name as author, every caller who may see
    it gets it as the first entry of the listing, and the listing of
    every caller who may not is unchanged. *)
Theorem create_announcement_heads_list (uuid : string) (now : datetime)
    (announcement_data : AnnouncementCreate.t) (current_user viewer : UserDoc.t)
    (db : DB) :
  may_write current_user ->
  (forall x, In x (announcements db) -> Announcement.created_at x < now) ->
  exists a db',
    create_announcement uuid now announcement_data current_user db
    = (Return a, db') /\
    Announcement.author a = UserDoc.full_name current_user /\
    Announcement.target_role a = AnnouncementCreate.target_role announcement_data /\
    (visible viewer a ->
     exists rest, get_announcements viewer db' = Return (a :: rest)) /\
    (~ visible viewer a ->
     get_announcements viewer db' = get_announcements viewer db).
Proof.
  intros Hrole Hnew. unfold create_announcement.
  rewrite (may_write_gate current_user Hrole). do 2 eexists.
  split; [reflexivity|]. split; [reflexivity|]. split; [reflexivity|].
  unfold get_announcements. simpl announcements.
  rewrite filter_insert_one. split.
  - intros Hv. apply announcement_query_visible in Hv. rewrite Hv.
    rewrite sort_desc_newest.
    + eexists. simpl. reflexivity.
    + intros x Hx. apply filter_In in Hx. simpl. now apply Hnew.
  - intros Hv. rewrite <- announcement_query_visible in Hv.
    apply not_true_is_false in Hv. now rewrite Hv.
Qed.

(** ** Dashboards *)

(** X12.  The parent's dashboard agrees with the parent's listing: its
    [announcements_count] is the number of stored announcements that are
    broadcast or addressed to parents, the listing of a parent-role
    caller has that many entries up to its cap of 100, and
    [children_count] is the number of students whose [parent_id] is the
    caller's id. *)
Theorem dashboard_parent_counts (today : string) (current_user : UserDoc.t)
    (db : DB) :
  UserDoc.role current_user = "parent" ->
  exists stats l n,
    get_dashboard_stats today current_user db = Return stats /\
    lookup "announcements_count" stats = Some n /\
    get_announcements current_user db = Return l /\
    n = List.length
          (filter (fun a => opt_eqb (Announcement.target_role a) None
                            || opt_eqb (Announcement.target_role a) (Some "parent"))
                  (announcements db)) /\
    List.length l = Nat.min 100 n /\
    lookup "children_count" stats =
      Some (List.length
              (filter (fun s => opt_eqb (Student.parent_id s)
                                        (Some (UserDoc.id current_user)))
                      (students db))).
Proof.
  intros Hrole.
  exists
    [ ("children_count",
       Collection.count_documents
         (fun s => opt_eqb (Student.parent_id s) (Some (UserDoc.id current_user)))
         (students db));
      ("announcements_count",
       Collection.count_documents
         (fun a => opt_eqb (Announcement.target_role a) None
                   || opt_eqb (Announcement.target_role a) (Some "parent"))
         (announcements db));
      ("events_count", 3%nat) ].
  do 2 eexists.
  split; [unfold get_dashboard_stats; rewrite Hrole; reflexivity|].
  split; [reflexivity|]. unfold get_announcements.
  split; [reflexivity|]. split; [reflexivity|]. split; [|reflexivity].
  rewrite length_firstn.
  rewrite (Permutation_length (sort_desc_perm Announcement.created_at _)).
  unfold Collection.count_documents. f_equal.
  f_equal. apply filter_ext. intros a.
  unfold announcement_query. rewrite Hrole. reflexivity.
Qed.

Lemma dashboard_total_students (today : string) (viewer : UserDoc.t) (db : DB) :
  UserDoc.role viewer = "admin" \/ UserDoc.role viewer = "teacher" ->
  exists stats,
    get_dashboard_stats today viewer db = Return stats /\
    lookup "total_students" stats = Some (List.length (students db)).
Proof.
  assert (E : forall l : list Student.t,
            Collection.count_documents (fun _ => true) l = List.length l).
  { unfold Collection.count_documents. induction l as [|x l IH]; simpl;
      [reflexivity | now rewrite IH]. }
  unfold get_dashboard_stats. intros [-> | ->]; simpl;
    eexists; (split; [reflexivity|]); simpl; now rewrite E.
Qed.

(** X13.  The student count of the admin and teacher dashboards follows
    the student routes: a create that succeeds raises [total_students]
    by one, and a delete that succeeds lowers it by one. *)
Theorem total_students_tracks (today : string) (viewer : UserDoc.t)
    (uuid : string) (now : datetime) (student_data : StudentCreate.t)
    (creator : UserDoc.t) (db1 db1' : DB) (s : Student.t)
    (student_id : string) (admin : UserDoc.t) (db2 db2' : DB) (message : string) :
  UserDoc.role viewer = "admin" \/ UserDoc.role viewer = "teacher" ->
  create_student uuid now student_data creator db1 = (Return s, db1') ->
  delete_student student_id admin db2 = (Return message, db2') ->
  (exists stats stats' n,
     get_dashboard_stats today viewer db1 = Return stats /\
     get_dashboard_stats today viewer db1' = Return stats' /\
     lookup "total_students" stats = Some n /\
     lookup "total_students" stats' = Some (S n)) /\
  (exists stats stats' n,
     get_dashboard_stats today viewer db2 = Return stats /\
     get_dashboard_stats today viewer db2' = Return stats' /\
     lookup "total_students" stats = Some (S n) /\
     lookup "total_students" stats' = Some n).
Proof.
  intros Hrole Hcreate Hdelete. split.
  - destruct (create_student_returns _ _ _ _ _ _ _ Hcreate) as (_ & _ & ->).
    destruct (dashboard_total_students today viewer db1 Hrole) as (st & E & L).
    destruct (dashboard_total_students today viewer
                (set_students (students db1 ++ [s]) db1) Hrole) as (st' & E' & L').
    exists st, st', (List.length (students db1)).
    split; [exact E|]. split; [exact E'|]. split; [exact L|].
    rewrite L'. simpl. rewrite length_app. simpl. f_equal. lia.
  - unfold delete_student in Hdelete.
    destruct (negb _); [discriminate|].
    destruct (Collection.find_one (student_with_id student_id) (students db2))
      as [d|] eqn:E.
    + destruct (delete_one_present _ _ _ E) as (pre & post & Hc & _ & Hdel).
      rewrite Hdel in Hdelete. simpl in Hdelete. injection Hdelete as _ <-.
      destruct (dashboard_total_students today viewer db2 Hrole) as (st & E1 & L).
      destruct (dashboard_total_students today viewer
                  (set_students (pre ++ post) db2) Hrole) as (st' & E' & L').
      exists st, st', (List.length (pre ++ post)).
      split; [exact E1|]. split; [exact E'|]. split; [|exact L'].
      rewrite L, Hc, !length_app. simpl. f_equal. lia.
    + rewrite (delete_one_absent _ _ E) in Hdelete. discriminate.
Qed.

(** X14.  Attendance reaches the student's dashboard.  When an admin or
    teacher marks an attendance for the student record the dashboard of
    a student-role caller is computed from, the caller's
    [total_attendance] goes up by one, [present_days] goes up by one
    exactly when the status is "present", and [total_grades] stays. *)
Theorem mark_attendance_reaches_dashboard (today : string)
    (caller : UserDoc.t) (student : Student.t) (uuid : string) (now : datetime)
    (attendance_data : AttendanceCreate.t) (current_user : UserDoc.t) (db : DB) :
  UserDoc.role caller = "student" ->
  Collection.find_one (student_of_user caller) (students db) = Some student ->
  AttendanceCreate.student_id attendance_data = Student.id student ->
  may_write current_user ->
  exists a db' total present graded,
    mark_attendance uuid now attendance_data current_user db = (Return a, db') /\
    get_dashboard_stats today caller db =
      Return [("total_attendance", total); ("present_days", present);
              ("total_grades", graded)] /\
    get_dashboard_stats today caller db' =
      Return [("total_attendance", S total);
              ("present_days",
               if String.eqb (AttendanceCreate.status attendance_data) "present"
               then S present else present);
              ("total_grades", graded)].
Proof.
  intros Hrole Hfind Hsid Hwrite. do 5 eexists.
  split; [exact (mark_attendance_allowed uuid now attendance_data current_user
                   db Hwrite)|].
  rewrite !(dashboard_student today caller _ Hrole).
  simpl students. rewrite Hfind. split; [reflexivity|].
  simpl attendance. simpl grades.
  unfold Collection.count_documents. rewrite !filter_app, !length_app. simpl.
  rewrite Hsid, String.eqb_refl. simpl.
  destruct (String.eqb (AttendanceCreate.status attendance_data) "present");
    simpl; rewrite !Nat.add_1_r, ?Nat.add_0_r; reflexivity.
Qed.

(** ** More on the student routes *)

Lemma set_students_same (db : DB) : set_students (students db) db = db.
Proof. now destruct db. Qed.

Lemma has_student_find (student_id : string) (db : DB) :
  ~ has_student student_id db ->
  Collection.find_one (student_with_id student_id) (students db) = None.
Proof.
  intros H. apply find_one_absent. intros d Hd.
  apply student_with_id_false. intros Hid. apply H. now exists d.
Qed.

(** X15.  An id that no stored student has.  Getting it, updating it as
    an admin or teacher and deleting it as an admin are all answered
    with 404 "Student not found", and the update and the delete leave
    the database as it was. *)
Theorem missing_student_not_found (student_id : string)
    (student_data : StudentCreate.t) (reader writer admin : UserDoc.t) (db : DB) :
  ~ has_student student_id db ->
  may_write writer ->
  UserDoc.role admin = "admin" ->
  get_student student_id reader db =
    Raise (mkHTTPException 404 "Student not found") /\
  update_student student_id student_data writer db =
    (Raise (mkHTTPException 404 "Student not found"), db) /\
  delete_student student_id admin db =
    (Raise (mkHTTPException 404 "Student not found"), db).
Proof.
  intros Hmissing Hwriter Hadmin.
  pose proof (has_student_find student_id db Hmissing) as E.
  unfold get_student, update_student, delete_student.
  rewrite (may_write_gate writer Hwriter), Hadmin, E.
  rewrite (delete_one_absent _ _ E). simpl.
  now rewrite set_students_same.
Qed.

(** X16.  Updating, then getting, then updating again.  After an update
    that succeeded, a get of the id answers with the record the update
    returned, and repeating the update with the same payload returns
    the same record and changes nothing. *)
Theorem update_student_then_get (student_id : string)
    (student_data : StudentCreate.t) (current_user reader : UserDoc.t)
    (db db' : DB) (s : Student.t) :
  update_student student_id student_data current_user db = (Return s, db') ->
  get_student student_id reader db' = Return s /\
  update_student student_id student_data current_user db' = (Return s, db').
Proof.
  intros Hupd.
  assert (Hgate : negb (str_in (UserDoc.role current_user) ["admin"; "teacher"])
                  = false).
  { unfold update_student in Hupd. destruct (negb _); [discriminate | reflexivity]. }
  destruct (update_student_returns _ _ _ _ _ _ Hupd)
    as (old & pre & post & Hc & Hpre & Hid & Hs & Hdb).
  assert (Hq : forall x, In x pre -> student_with_id student_id x = false).
  { intros x Hx. apply student_with_id_false. now apply Hpre. }
  assert (Hqs : student_with_id student_id s = true).
  { apply student_with_id_true. now rewrite Hs. }
  assert (Hfind : Collection.find_one (student_with_id student_id) (students db')
                  = Some s).
  { rewrite Hdb. simpl. now apply find_app_first. }
  split.
  - unfold get_student. now rewrite Hfind.
  - unfold update_student. rewrite Hgate, Hfind.
    assert (Hsame : set_update_data student_data s = s) by now rewrite Hs.
    assert (Hupd' : Collection.update_one (student_with_id student_id)
                      (set_update_data student_data) (students db')
                    = students db').
    { destruct (update_one_present _ (set_update_data student_data) _ _ Hfind)
        as (pre' & post' & Hc' & _ & ->). now rewrite Hsame. }
    rewrite Hupd', set_students_same, Hfind. reflexivity.
Qed.

Lemma find_update_one_other {D : Type} (q q' : D -> bool) (f : D -> D)
    (c : list D) :
  (forall d, q d = true -> q' d = false) ->
  (forall d, q' (f d) = q' d) ->
  find q' (Collection.update_one q f c) = option_map (fun d => d) (find q' c).
Proof.
  intros Hdis Hf. induction c as [|e c IH]; simpl; [reflexivity|].
  destruct (q e) eqn:Eq; simpl.
  - rewrite Hf, (Hdis e Eq). now destruct (find q' c).
  - destruct (q' e); [reflexivity | exact IH].
Qed.

Lemma find_delete_one_other {D : Type} (q q' : D -> bool) (c : list D) :
  (forall d, q d = true -> q' d = false) ->
  find q' (fst (Collection.delete_one q c)) = find q' c.
Proof.
  intros Hdis. induction c as [|e c IH]; simpl; [reflexivity|].
  destruct (q e) eqn:Eq; simpl.
  - now rewrite (Hdis e Eq).
  - destruct (Collection.delete_one q c) as [r n]. simpl in IH |- *.
    destruct (q' e); [reflexivity | exact IH].
Qed.

Lemma student_with_id_disjoint (a b : string) (d : Student.t) :
  a <> b -> student_with_id a d = true -> student_with_id b d = false.
Proof.
  intros Hne Ha. apply student_with_id_true in Ha.
  apply student_with_id_false. congruence.
Qed.

(** X17.  A student request leaves every other id alone.  Whatever a
    create, update or delete does, and whether it is accepted or
    refused, a get of an id the request does not name answers as it did
    before, and the other four collections are untouched. *)
Theorem student_request_frame (r : student_request) (student_id : string)
    (reader : UserDoc.t) (db : DB) :
  ~ touches student_id r ->
  get_student student_id reader (serve r db) = get_student student_id reader db /\
  users (serve r db) = users db /\
  attendance (serve r db) = attendance db /\
  grades (serve r db) = grades db /\
  announcements (serve r db) = announcements db.
Proof.
  intros Hother. unfold get_student.
  destruct r as [uuid now sd cu | sid sd cu | sid cu]; simpl in Hother |- *.
  - unfold create_student. destruct (negb _); simpl; [repeat split|].
    rewrite find_one_insert_one. simpl.
    apply not_eq_sym in Hother. apply String.eqb_neq in Hother.
    unfold student_with_id at 2. simpl. rewrite String.eqb_sym, Hother.
    split; [|repeat split].
    now destruct (Collection.find_one (student_with_id student_id) (students db)).
  - unfold update_student. destruct (negb _); simpl; [repeat split|].
    destruct (Collection.find_one (student_with_id sid) (students db));
      simpl; [|repeat split].
    assert (E : Collection.find_one (student_with_id student_id)
                  (Collection.update_one (student_with_id sid)
                     (set_update_data sd) (students db))
                = Collection.find_one (student_with_id student_id) (students db)).
    { unfold Collection.find_one.
      rewrite (find_update_one_other (student_with_id sid)
                 (student_with_id student_id));
        [now destruct (find _ _) | | reflexivity].
      intros d. now apply student_with_id_disjoint. }
    destruct (Collection.find_one (student_with_id sid) _); simpl;
      rewrite E; repeat split.
  - unfold delete_student. destruct (negb _); simpl; [repeat split|].
    pose proof (find_delete_one_other (student_with_id sid)
                  (student_with_id student_id) (students db)
                  (fun d => student_with_id_disjoint sid student_id d Hother))
      as E.
    destruct (Collection.delete_one (student_with_id sid) (students db))
      as [remaining n]. simpl in E.
    destruct (Nat.eqb n 0); simpl; unfold Collection.find_one; rewrite E;
      repeat split.
Qed.

(** X18.  Creating, then listing.  The student listing answers with the
    first 1000 stored students in the order they were stored; while
    fewer than 1000 are stored, a create by an admin or teacher puts
    the new student at the end of the listing. *)
Theorem create_student_then_list (uuid : string) (now : datetime)
    (student_data : StudentCreate.t) (current_user reader : UserDoc.t)
    (db : DB) :
  may_write current_user ->
  (List.length (students db) < 1000)%nat ->
  exists s db',
    create_student uuid now student_data current_user db = (Return s, db') /\
    get_students reader db = Return (students db) /\
    get_students reader db' = Return (students db ++ [s]).
Proof.
  intros Hrole Hfew.
  destruct (create_student_allowed uuid now student_data current_user db Hrole)
    as [s Hcreate].
  exists s, (set_students (students db ++ [s]) db).
  assert (E : forall l : list Student.t, filter (fun _ => true) l = l).
  { induction l as [|x l IH]; simpl; [reflexivity | now rewrite IH]. }
  split; [exact Hcreate|].
  unfold get_students, Collection.find_to_list. simpl students. rewrite !E.
  rewrite !firstn_all2; [split; reflexivity | | lia].
  rewrite length_app. simpl. lia.
Qed.

(** X19.  A delete takes out one record.  A delete that succeeded was
    made by an admin and removed exactly the first stored student with
    the id: the students before and after it are as they were, in
    order, later students with the same id included. *)
Theorem delete_student_removes_first (student_id : string)
    (current_user : UserDoc.t) (db db' : DB) (message : string) :
  delete_student student_id current_user db = (Return message, db') ->
  UserDoc.role current_user = "admin" /\
  message = "Student deleted successfully" /\
  exists d pre post,
    students db = pre ++ d :: post /\
    Student.id d = student_id /\
    (forall x, In x pre -> Student.id x <> student_id) /\
    db' = set_students (pre ++ post) db.
Proof.
  unfold delete_student.
  destruct (String.eqb_spec (UserDoc.role current_user) "admin") as [Hrole|_];
    simpl; [|discriminate].
  destruct (Collection.find_one (student_with_id student_id) (students db))
    as [d|] eqn:E.
  - destruct (delete_one_present _ _ _ E) as (pre & post & Hc & Hpre & ->).
    simpl. intros [= <- <-]. split; [exact Hrole|]. split; [reflexivity|].
    exists d, pre, post. destruct (find_one_In _ _ _ E) as [_ Hd].
    split; [exact Hc|]. split; [now apply student_with_id_true|].
    split; [|reflexivity]. intros x Hx. apply student_with_id_false.
    now apply Hpre.
  - rewrite (delete_one_absent _ _ E). simpl. discriminate.
Qed.

End Server.

(** ** The properties on the small school *)

Lemma register_existing_username_witness :
  (exists u, In u (users school) /\
             UserDoc.username u =
             UserCreate.username (UserCreate.mk "alice" "rabbit" "parent" "Al" None)) /\
  exists e,
    register sample_hash "u-9" 130 "zz"
      (UserCreate.mk "alice" "rabbit" "parent" "Al" None) school
    = (Raise e, school) /\
    status_code e = 400 /\
    detail e = "Username already exists" /\
    kind_of e = Conflict.
Proof.
  assert (H : exists u, In u (users school) /\
                        UserDoc.username u =
                        UserCreate.username
                          (UserCreate.mk "alice" "rabbit" "parent" "Al" None)).
  { exists alice. split; [simpl; auto | reflexivity]. }
  split; [exact H|].
  exact (register_existing_username sample_hash "u-9" 130 "zz" _ school H).
Defined.

Lemma login_failures_indistinguishable_witness :
  bad_credentials sample_verify (UserLogin.mk "nobody" "chalk") school /\
  bad_credentials sample_verify (UserLogin.mk "terry" "cheese") school /\
  login sample_secret sample_verify 140 (UserLogin.mk "nobody" "chalk") school =
  login sample_secret sample_verify 150 (UserLogin.mk "terry" "cheese") school.
Proof.
  assert (H1 : bad_credentials sample_verify (UserLogin.mk "nobody" "chalk") school).
  { left. intros u Hu. simpl in Hu.
    destruct Hu as [<- | [<- | [<- | [<- | []]]]]; simpl; discriminate. }
  assert (H2 : bad_credentials sample_verify (UserLogin.mk "terry" "cheese") school).
  { right. exists terry. split; reflexivity. }
  split; [exact H1|]. split; [exact H2|].
  exact (proj1 (login_failures_indistinguishable sample_secret sample_verify
                  140 150 _ _ school school H1 H2)).
Defined.

Lemma token_expired_or_invalid_witness :
  0 + timedelta_hours 24 < 90000000000 /\
  invalid_token sample_secret (jwt.Malformed "not.a.token") /\
  get_current_user sample_secret 90000000000
    (create_access_token sample_secret 0
       (jwt.mkClaims (Some "u-2") (Some "teacher") None)) school
  = Raise (mkHTTPException 401 "Token has expired") /\
  get_current_user sample_secret 160 (jwt.Malformed "not.a.token") school
  = Raise (mkHTTPException 500 "Internal Server Error").
Proof.
  assert (H1 : 0 + timedelta_hours 24 < 90000000000) by (vm_compute; reflexivity).
  assert (H2 : invalid_token sample_secret (jwt.Malformed "not.a.token"))
    by exact I.
  split; [exact H1|]. split; [exact H2|].
  destruct (token_expired_or_invalid sample_secret 0 90000000000
              (jwt.mkClaims (Some "u-2") (Some "teacher") None)
              160 (jwt.Malformed "not.a.token") school school H1 H2)
    as (E1 & E2 & _).
  split; [exact E1 | exact E2].
Defined.



Lemma school_unique_ids : unique_ids school.
Proof.
  unfold unique_ids. simpl.
  constructor; [simpl; intros [H | []]; discriminate H|].
  constructor; [intros [] | constructor].
Qed.

Lemma delete_student_admin_only_witness :
  UserDoc.role terry <> "admin" /\
  UserDoc.role alice = "admin" /\
  unique_ids school /\
  has_student "s-1" school /\
  delete_student "s-2" terry school =
    (Raise (mkHTTPException 403 "Not authorized"), school) /\
  exists db',
    delete_student "s-1" alice school =
      (Return "Student deleted successfully", db') /\
    get_student "s-1" paula db' = Raise (mkHTTPException 404 "Student not found").
Proof.
  assert (H1 : UserDoc.role terry <> "admin") by (simpl; discriminate).
  assert (H2 : UserDoc.role alice = "admin") by reflexivity.
  assert (H4 : has_student "s-1" school).
  { exists sam_record. split; [simpl; auto | reflexivity]. }
  split; [exact H1|]. split; [exact H2|].
  split; [exact school_unique_ids|]. split; [exact H4|].
  destruct (delete_student_admin_only terry alice "s-2" "s-1" school school
              H1 H2 school_unique_ids H4) as ((E & _) & db' & Hdel & Hget).
  split; [exact E|]. exists db'. split; [exact Hdel|].
  exact (proj1 (Hget [] paula (Forall_nil _))).
Defined.

Lemma create_student_round_trip_witness :
  may_write terry /\
  fresh_id "s-3" school /\
  exists s db',
    create_student "s-3" 200 kim_data terry school = (Return s, db') /\
    get_student (Student.id s) sam db' = Return s /\
    carries kim_data s /\
    Student.id s = "s-3" /\
    Student.created_at s = 200 /\
    Collection.count_documents (student_with_id (Student.id s)) (students db')
      = 1%nat.
Proof.
  assert (H1 : may_write terry) by (right; reflexivity).
  assert (H2 : fresh_id "s-3" school).
  { intros s Hs. simpl in Hs.
    destruct Hs as [<- | [<- | []]]; simpl; discriminate. }
  split; [exact H1|]. split; [exact H2|].
  exact (create_student_round_trip "s-3" 200 kim_data terry sam school H1 H2).
Defined.

Lemma dashboard_stats_student_witness :
  UserDoc.role sam = "student" /\
  is_return (get_dashboard_stats "2024-03-04" sam school) = true.
Proof.
  assert (H : UserDoc.role sam = "student") by reflexivity.
  split; [exact H|].
  exact (proj1 (dashboard_stats_student "2024-03-04" sam school H)).
Defined.

Lemma create_student_user_id_witness :
  create_student "s-3" 200 kim_data terry school =
    (Return (Student.mk "s-3" "u-2" "Kim Kay" "21" "6" "A" None
               (Some "2014-02-03") (Some "1 Elm Road") None 200),
     set_students
       (students school ++
        [Student.mk "s-3" "u-2" "Kim Kay" "21" "6" "A" None
           (Some "2014-02-03") (Some "1 Elm Road") None 200]) school) /\
  Student.user_id
    (Student.mk "s-3" "u-2" "Kim Kay" "21" "6" "A" None
       (Some "2014-02-03") (Some "1 Elm Road") None 200) = UserDoc.id terry.
Proof.
  assert (H : create_student "s-3" 200 kim_data terry school =
    (Return (Student.mk "s-3" "u-2" "Kim Kay" "21" "6" "A" None
               (Some "2014-02-03") (Some "1 Elm Road") None 200),
     set_students
       (students school ++
        [Student.mk "s-3" "u-2" "Kim Kay" "21" "6" "A" None
           (Some "2014-02-03") (Some "1 Elm Road") None 200]) school))
    by reflexivity.
  split; [exact H|].
  exact (proj1 (create_student_user_id "s-3" 200 kim_data terry school _ _ H)).
Defined.

Lemma update_student_frame_witness :
  update_student "s-2" kim_data terry school =
    (Return (set_update_data kim_data kim_record),
     set_students [sam_record; set_update_data kim_data kim_record] school) /\
  exists old pre post,
    students school = pre ++ old :: post /\
    students (set_students [sam_record; set_update_data kim_data kim_record] school)
      = pre ++ set_update_data kim_data kim_record :: post /\
    carries kim_data (set_update_data kim_data kim_record) /\
    Student.id (set_update_data kim_data kim_record) = Student.id old /\
    Student.user_id (set_update_data kim_data kim_record) = Student.user_id old /\
    Student.created_at (set_update_data kim_data kim_record)
      = Student.created_at old /\
    Student.id old = "s-2" /\
    users (set_students [sam_record; set_update_data kim_data kim_record] school)
      = users school /\
    attendance (set_students [sam_record; set_update_data kim_data kim_record] school)
      = attendance school /\
    grades (set_students [sam_record; set_update_data kim_data kim_record] school)
      = grades school /\
    announcements
      (set_students [sam_record; set_update_data kim_data kim_record] school)
      = announcements school.
Proof.
  assert (H : update_student "s-2" kim_data terry school =
    (Return (set_update_data kim_data kim_record),
     set_students [sam_record; set_update_data kim_data kim_record] school))
    by reflexivity.
  split; [exact H|].
  exact (update_student_frame "s-2" kim_data terry school _ _ H).
Defined.

(** What a parent, a teacher and an admin are shown of the three
    announcements of the school, and what two students find on their
    dashboards. *)
Example get_announcements_paula :
  get_announcements paula school = Return [parents_evening; sports_day].
Proof. reflexivity. Qed.

Example get_announcements_terry :
  get_announcements terry school = Return [sports_day; staff_meeting].
Proof. reflexivity. Qed.

Example get_announcements_alice :
  get_announcements alice school =
    Return [parents_evening; sports_day; staff_meeting].
Proof. reflexivity. Qed.

Example get_dashboard_stats_sam :
  get_dashboard_stats "2024-03-04" sam school =
    Return [("total_attendance", 2%nat); ("present_days", 1%nat);
            ("total_grades", 1%nat)].
Proof. reflexivity. Qed.

Example get_dashboard_stats_unmatched :
  get_dashboard_stats "2024-03-04"
    (UserDoc.mk "u-7" "noor" "student" "Noor N" None 170 "ab:ink") school
  = Return [].
Proof. reflexivity. Qed.

(** ** Further examples on the small school *)

Lemma tagged_hasher_correct : hasher_correct tagged_hash tagged_verify.
Proof.
  intros salt password.
  unfold verify_password, hash_password, tagged_verify, tagged_hash.
  induction password as [|c password IH]; simpl.
  - now destruct salt.
  - destruct (Ascii.ascii_dec c c) as [_|H]; [exact IH | now elim H].
Qed.

Lemma register_then_login_witness :
  hasher_correct tagged_hash tagged_verify /\
  register tagged_hash "u-5" 300 "pq" nora_data school =
    (Return (User.mk "u-5" "nora" "parent" "Nora North"
               (Some "nora@home.example") 300),
     snd (register tagged_hash "u-5" 300 "pq" nora_data school)) /\
  exists token,
    login sample_secret tagged_verify 400 (UserLogin.mk "nora" "owl")
      (snd (register tagged_hash "u-5" 300 "pq" nora_data school))
    = Return (mkLoginResponse token "bearer"
                (User.mk "u-5" "nora" "parent" "Nora North"
                   (Some "nora@home.example") 300)).
Proof.
  assert (H : register tagged_hash "u-5" 300 "pq" nora_data school =
              (Return (User.mk "u-5" "nora" "parent" "Nora North"
                         (Some "nora@home.example") 300),
               snd (register tagged_hash "u-5" 300 "pq" nora_data school)))
    by reflexivity.
  split; [exact tagged_hasher_correct|]. split; [exact H|].
  destruct (register_then_login sample_secret tagged_hash tagged_verify
              "u-5" 300 "pq" nora_data school _ _ 400 tagged_hasher_correct H)
    as (token & Hlogin & _).
  exists token. exact Hlogin.
Defined.

Lemma school_unique_usernames : unique_usernames school.
Proof.
  unfold unique_usernames. simpl.
  repeat (constructor;
          [simpl; intros H;
           repeat (destruct H as [H | H]; [discriminate H|]); exact H|]).
  constructor.
Qed.

Lemma school_unique_user_ids : unique_user_ids school.
Proof.
  unfold unique_user_ids. simpl.
  repeat (constructor;
          [simpl; intros H;
           repeat (destruct H as [H | H]; [discriminate H|]); exact H|]).
  constructor.
Qed.

Lemma register_keeps_usernames_unique_witness :
  unique_usernames school /\
  unique_usernames (snd (register sample_hash "u-5" 300 "pq" nora_data school)).
Proof.
  split; [exact school_unique_usernames|].
  exact (register_keeps_usernames_unique sample_hash "u-5" 300 "pq" nora_data
           school school_unique_usernames).
Defined.

Lemma within_lifetime_example : within_lifetime 0 1000.
Proof. unfold within_lifetime. vm_compute. discriminate. Qed.

Lemma login_token_authenticates_witness :
  unique_user_ids school /\
  within_lifetime 0 1000 /\
  login sample_secret sample_verify 0 (UserLogin.mk "terry" "chalk") school =
    Return (mkLoginResponse
              (create_access_token sample_secret 0
                 (jwt.mkClaims (Some "u-2") (Some "teacher") None))
              "bearer" (User_of_doc terry)) /\
  exists u,
    In u (users school) /\
    UserDoc.username u = "terry" /\
    get_current_user sample_secret 1000
      (create_access_token sample_secret 0
         (jwt.mkClaims (Some "u-2") (Some "teacher") None)) school = Return u /\
    Depends sample_secret 1000
      (create_access_token sample_secret 0
         (jwt.mkClaims (Some "u-2") (Some "teacher") None)) school get_me
    = Return (User_of_doc terry).
Proof.
  assert (H : login sample_secret sample_verify 0 (UserLogin.mk "terry" "chalk")
                school =
              Return (mkLoginResponse
                        (create_access_token sample_secret 0
                           (jwt.mkClaims (Some "u-2") (Some "teacher") None))
                        "bearer" (User_of_doc terry))) by reflexivity.
  split; [exact school_unique_user_ids|].
  split; [exact within_lifetime_example|]. split; [exact H|].
  exact (login_token_authenticates sample_secret sample_verify 0 1000 _ school _
           school_unique_user_ids within_lifetime_example H).
Defined.

Lemma create_access_token_round_trip_witness :
  within_lifetime 0 1000 /\
  exists payload,
    jwt.decode 1000
      (create_access_token sample_secret 0
         (jwt.mkClaims (Some "u-2") (Some "teacher") (Some 7)))
      sample_secret [JWT_ALGORITHM] = inl payload /\
    jwt.sub payload = Some "u-2" /\
    jwt.role payload = Some "teacher" /\
    jwt.exp payload = Some ((0 + 24 * 3600 * 1000000) / 1000000).
Proof.
  split; [exact within_lifetime_example|].
  exact (create_access_token_round_trip sample_secret 0 1000
           (jwt.mkClaims (Some "u-2") (Some "teacher") (Some 7))
           within_lifetime_example).
Defined.

Lemma sam_may_not_write : ~ may_write sam.
Proof. intros [H | H]; discriminate H. Qed.

Lemma terry_may_write : may_write terry.
Proof. right. reflexivity. Qed.

Lemma writers_forbidden_witness :
  ~ may_write sam /\
  create_student "s-3" 200 kim_data sam school =
    (Raise (mkHTTPException 403 "Not authorized"), school) /\
  update_student "s-9" kim_data sam school =
    (Raise (mkHTTPException 403 "Not authorized"), school).
Proof.
  split; [exact sam_may_not_write|].
  destruct (writers_forbidden sam school "s-3" 200 "s-9" kim_data late_sam
              essay_sam bake_sale sam_may_not_write) as (E1 & E2 & _).
  split; [exact E1 | exact E2].
Defined.

Lemma mark_attendance_twice_witness :
  may_write terry /\
  exists a1 a2 db1 db2,
    mark_attendance "a-3" 210 late_sam terry school = (Return a1, db1) /\
    mark_attendance "a-4" 220 late_sam terry db1 = (Return a2, db2) /\
    attendance db2 = attendance school ++ [a1; a2].
Proof.
  split; [exact terry_may_write|].
  destruct (mark_attendance_twice "a-3" "a-4" 210 220 late_sam terry school
              terry_may_write) as (a1 & a2 & db1 & db2 & E1 & E2 & E3 & _).
  exists a1, a2, db1, db2. repeat split; assumption.
Defined.

Lemma mark_attendance_then_get_witness :
  may_write terry /\
  (Collection.count_documents
     (attendance_query (Some (AttendanceCreate.student_id late_sam))
                       (Some (AttendanceCreate.date late_sam)))
     (attendance school) < 1000)%nat /\
  exists a db' l,
    mark_attendance "a-3" 210 late_sam terry school = (Return a, db') /\
    get_attendance (Some (AttendanceCreate.student_id late_sam))
      (Some (AttendanceCreate.date late_sam)) paula school = Return l /\
    get_attendance (Some (AttendanceCreate.student_id late_sam))
      (Some (AttendanceCreate.date late_sam)) paula db' = Return (l ++ [a]).
Proof.
  assert (H : (Collection.count_documents
                 (attendance_query (Some (AttendanceCreate.student_id late_sam))
                                   (Some (AttendanceCreate.date late_sam)))
                 (attendance school) < 1000)%nat)
    by (apply Nat.ltb_lt; reflexivity).
  split; [exact terry_may_write|]. split; [exact H|].
  exact (mark_attendance_then_get "a-3" 210 late_sam terry paula school
           terry_may_write H).
Defined.

Lemma add_grade_then_get_witness :
  may_write terry /\
  (Collection.count_documents
     (optional_filter Grade.student_id (Some (GradeCreate.student_id essay_sam)))
     (grades school) < 1000)%nat /\
  exists g db' l,
    add_grade "g-2" 230 essay_sam terry school = (Return g, db') /\
    carries_grade essay_sam g /\
    Grade.teacher_id g = UserDoc.id terry /\
    get_grades (Some (GradeCreate.student_id essay_sam)) sam school = Return l /\
    get_grades (Some (GradeCreate.student_id essay_sam)) sam db'
    = Return (l ++ [g]).
Proof.
  assert (H : (Collection.count_documents
                 (optional_filter Grade.student_id
                    (Some (GradeCreate.student_id essay_sam)))
                 (grades school) < 1000)%nat)
    by (apply Nat.ltb_lt; reflexivity).
  split; [exact terry_may_write|]. split; [exact H|].
  exact (add_grade_then_get "g-2" 230 essay_sam terry sam school
           terry_may_write H).
Defined.

Lemma school_announcements_before_500 :
  forall x, In x (announcements school) -> Announcement.created_at x < 500.
Proof.
  intros x Hx. simpl in Hx.
  destruct Hx as [<- | [<- | [<- | []]]]; reflexivity.
Qed.

Lemma create_announcement_heads_list_witness :
  may_write terry /\
  (forall x, In x (announcements school) -> Announcement.created_at x < 500) /\
  exists a db',
    create_announcement "n-4" 500 bake_sale terry school = (Return a, db') /\
    Announcement.author a = "Terry Tate" /\
    (visible paula a ->
     exists rest, get_announcements paula db' = Return (a :: rest)) /\
    (~ visible sam a -> get_announcements sam db' = get_announcements sam school).
Proof.
  split; [exact terry_may_write|].
  split; [exact school_announcements_before_500|].
  destruct (create_announcement_heads_list "n-4" 500 bake_sale terry paula school
              terry_may_write school_announcements_before_500)
    as (a & db' & Hcreate & Hauthor & _ & Hseen & _).
  destruct (create_announcement_heads_list "n-4" 500 bake_sale terry sam school
              terry_may_write school_announcements_before_500)
    as (a2 & db2 & Hcreate2 & _ & _ & _ & Hunseen).
  rewrite Hcreate in Hcreate2. injection Hcreate2 as <- <-.
  exists a, db'. repeat split; assumption.
Defined.

Lemma dashboard_parent_counts_witness :
  UserDoc.role paula = "parent" /\
  exists stats l n,
    get_dashboard_stats "2024-03-04" paula school = Return stats /\
    lookup "announcements_count" stats = Some n /\
    get_announcements paula school = Return l /\
    n = List.length
          (filter (fun a => opt_eqb (Announcement.target_role a) None
                            || opt_eqb (Announcement.target_role a) (Some "parent"))
                  (announcements school)) /\
    List.length l = Nat.min 100 n.
Proof.
  assert (H : UserDoc.role paula = "parent") by reflexivity.
  split; [exact H|].
  destruct (dashboard_parent_counts "2024-03-04" paula school H)
    as (stats & l & n & E1 & E2 & E3 & E4 & E5 & _).
  exists stats, l, n. repeat split; assumption.
Defined.

Lemma total_students_tracks_witness :
  (UserDoc.role alice = "admin" \/ UserDoc.role alice = "teacher") /\
  create_student "s-3" 200 kim_data terry school =
    (Return (Student.mk "s-3" "u-2" "Kim Kay" "21" "6" "A" None
               (Some "2014-02-03") (Some "1 Elm Road") None 200),
     snd (create_student "s-3" 200 kim_data terry school)) /\
  delete_student "s-1" alice school =
    (Return "Student deleted successfully",
     snd (delete_student "s-1" alice school)) /\
  exists stats stats' n,
    get_dashboard_stats "2024-03-04" alice school = Return stats /\
    get_dashboard_stats "2024-03-04" alice
      (snd (create_student "s-3" 200 kim_data terry school)) = Return stats' /\
    lookup "total_students" stats = Some n /\
    lookup "total_students" stats' = Some (S n).
Proof.
  assert (H1 : UserDoc.role alice = "admin" \/ UserDoc.role alice = "teacher")
    by (left; reflexivity).
  assert (H2 : create_student "s-3" 200 kim_data terry school =
    (Return (Student.mk "s-3" "u-2" "Kim Kay" "21" "6" "A" None
               (Some "2014-02-03") (Some "1 Elm Road") None 200),
     snd (create_student "s-3" 200 kim_data terry school))) by reflexivity.
  assert (H3 : delete_student "s-1" alice school =
    (Return "Student deleted successfully",
     snd (delete_student "s-1" alice school))) by reflexivity.
  split; [exact H1|]. split; [exact H2|]. split; [exact H3|].
  exact (proj1 (total_students_tracks "2024-03-04" alice "s-3" 200 kim_data terry
                  school _ _ "s-1" alice school _ _ H1 H2 H3)).
Defined.

Lemma mark_attendance_reaches_dashboard_witness :
  UserDoc.role sam = "student" /\
  Collection.find_one (student_of_user sam) (students school) = Some sam_record /\
  AttendanceCreate.student_id late_sam = Student.id sam_record /\
  may_write terry /\
  exists a db' total present graded,
    mark_attendance "a-3" 210 late_sam terry school = (Return a, db') /\
    get_dashboard_stats "2024-03-06" sam school =
      Return [("total_attendance", total); ("present_days", present);
              ("total_grades", graded)] /\
    get_dashboard_stats "2024-03-06" sam db' =
      Return [("total_attendance", S total);
              ("present_days",
               if String.eqb (AttendanceCreate.status late_sam) "present"
               then S present else present);
              ("total_grades", graded)].
Proof.
  assert (H1 : UserDoc.role sam = "student") by reflexivity.
  assert (H2 : Collection.find_one (student_of_user sam) (students school)
               = Some sam_record) by reflexivity.
  assert (H3 : AttendanceCreate.student_id late_sam = Student.id sam_record)
    by reflexivity.
  split; [exact H1|]. split; [exact H2|]. split; [exact H3|].
  split; [exact terry_may_write|].
  exact (mark_attendance_reaches_dashboard "2024-03-06" sam sam_record "a-3" 210
           late_sam terry school H1 H2 H3 terry_may_write).
Defined.

Lemma school_has_no_s9 : ~ has_student "s-9" school.
Proof.
  intros (s & Hs & Hid). simpl in Hs.
  destruct Hs as [<- | [<- | []]]; discriminate Hid.
Qed.

Lemma missing_student_not_found_witness :
  ~ has_student "s-9" school /\
  may_write terry /\
  UserDoc.role alice = "admin" /\
  get_student "s-9" sam school =
    Raise (mkHTTPException 404 "Student not found") /\
  update_student "s-9" kim_data terry school =
    (Raise (mkHTTPException 404 "Student not found"), school) /\
  delete_student "s-9" alice school =
    (Raise (mkHTTPException 404 "Student not found"), school).
Proof.
  assert (H3 : UserDoc.role alice = "admin") by reflexivity.
  split; [exact school_has_no_s9|]. split; [exact terry_may_write|].
  split; [exact H3|].
  exact (missing_student_not_found "s-9" kim_data sam terry alice school
           school_has_no_s9 terry_may_write H3).
Defined.

Lemma update_student_then_get_witness :
  update_student "s-2" kim_data terry school =
    (Return (set_update_data kim_data kim_record),
     set_students [sam_record; set_update_data kim_data kim_record] school) /\
  get_student "s-2" paula
    (set_students [sam_record; set_update_data kim_data kim_record] school)
  = Return (set_update_data kim_data kim_record) /\
  update_student "s-2" kim_data terry
    (set_students [sam_record; set_update_data kim_data kim_record] school)
  = (Return (set_update_data kim_data kim_record),
     set_students [sam_record; set_update_data kim_data kim_record] school).
Proof.
  assert (H : update_student "s-2" kim_data terry school =
    (Return (set_update_data kim_data kim_record),
     set_students [sam_record; set_update_data kim_data kim_record] school))
    by reflexivity.
  split; [exact H|].
  exact (update_student_then_get "s-2" kim_data terry paula school _ _ H).
Defined.

Lemma student_request_frame_witness :
  ~ touches "s-1" (Delete "s-2" alice) /\
  get_student "s-1" sam (serve (Delete "s-2" alice) school) =
    get_student "s-1" sam school.
Proof.
  assert (H : ~ touches "s-1" (Delete "s-2" alice))
    by (simpl; discriminate).
  split; [exact H|].
  exact (proj1 (student_request_frame (Delete "s-2" alice) "s-1" sam school H)).
Defined.

Lemma create_student_then_list_witness :
  may_write terry /\
  (List.length (students school) < 1000)%nat /\
  exists s db',
    create_student "s-3" 200 kim_data terry school = (Return s, db') /\
    get_students sam school = Return (students school) /\
    get_students sam db' = Return (students school ++ [s]).
Proof.
  assert (H : (List.length (students school) < 1000)%nat)
    by (apply Nat.ltb_lt; reflexivity).
  split; [exact terry_may_write|]. split; [exact H|].
  exact (create_student_then_list "s-3" 200 kim_data terry sam school
           terry_may_write H).
Defined.

Lemma delete_student_removes_first_witness :
  delete_student "s-1" alice school =
    (Return "Student deleted successfully", set_students [kim_record] school) /\
  UserDoc.role alice = "admin" /\
  exists d pre post,
    students school = pre ++ d :: post /\
    Student.id d = "s-1" /\
    (forall x, In x pre -> Student.id x <> "s-1") /\
    set_students [kim_record] school = set_students (pre ++ post) school.
Proof.
  assert (H : delete_student "s-1" alice school =
    (Return "Student deleted successfully", set_students [kim_record] school))
    by reflexivity.
  split; [exact H|].
  destruct (delete_student_removes_first "s-1" alice school _ _ H)
    as (Hrole & _ & Hrest).
  split; [exact Hrole | exact Hrest].
Defined.

(** A parameter that is the empty string, and the dependency on a token
    whose subject was removed from the claims. *)
Example get_attendance_empty_student_id :
  get_attendance (Some "") (Some "2024-03-05") sam school = Return [tuesday_sam].
Proof. reflexivity. Qed.

Example get_current_user_without_sub :
  get_current_user sample_secret 1000
    (create_access_token sample_secret 0 (jwt.mkClaims None (Some "teacher") None))
    school
  = Raise (mkHTTPException 500 "Internal Server Error").
Proof. reflexivity. Qed.
